(** * The session-stop hook [hooks/stop.py]: transcript reader, session-info
    extractor, summary renderer and the [main] driver.

    The Python functions are embedded as Rocq functions of the same names.
    Python objects decoded from JSON are the type [value]; a raised exception
    is the [Raise] branch of [result]; the files the hook reads and writes
    are a finite map from paths to what reading them yields. *)

From Stdlib Require Import ZArith List Ascii String Floats.SpecFloat.
From stdpp Require Import base decidable option list gmap.
Import ListNotations.

#[local] Set Warnings "-register-all".

Local Open Scope Z_scope.
Local Open Scope nat_scope.
Local Open Scope list_scope.

(** ** Python strings

    A Python [str] is a sequence of Unicode code points: [len] is [length],
    [s[:n]] is [take n s] and [+] is [++]. *)

Abbreviation str := (list N).

(** An ASCII literal of the source, as a [str]. *)
Definition lit (s : string) : str := map N_of_ascii (list_ascii_of_string s).

(** [str.isspace] on one code point: the code points CPython's
    [_PyUnicode_IsWhitespace] accepts. *)
Definition isspace (c : N) : bool :=
  (((9 <=? c) && (c <=? 13)) || ((28 <=? c) && (c <=? 32))
   || (c =? 133) || (c =? 160) || (c =? 5760)
   || ((8192 <=? c) && (c <=? 8202))
   || (c =? 8232) || (c =? 8233) || (c =? 8239) || (c =? 8287)
   || (c =? 12288))%N.

Fixpoint lstrip (s : str) : str :=
  match s with
  | c :: r => if isspace c then lstrip r else s
  | [] => []
  end.

(** [s.strip()] *)
Definition strip (s : str) : str := rev (lstrip (rev (lstrip s))).

Fixpoint startswith (p s : str) : bool :=
  match p, s with
  | [], _ => true
  | a :: p', b :: s' => (a =? b)%N && startswith p' s'
  | _ :: _, [] => false
  end.

(** [needle in s] for strings. *)
Fixpoint contains (needle s : str) : bool :=
  startswith needle s
  || match s with
     | [] => false
     | _ :: r => contains needle r
     end.

(** [s.replace(a, b)] for one-character [a] and [b]. *)
Definition replace_char (a b : N) (s : str) : str :=
  map (fun c => if (c =? a)%N then b else c) s.

(** [sep.join(parts)] for strings. *)
Fixpoint join (sep : str) (parts : list str) : str :=
  match parts with
  | [] => []
  | [p] => p
  | p :: rest => p ++ sep ++ join sep rest
  end.

(** ASCII lower-casing, the part of [str.lower] that needs no Unicode table. *)
Definition ascii_lower (c : N) : N :=
  if ((65 <=? c) && (c <=? 90))%N then (c + 32)%N else c.

Definition is_ascii (c : N) : Prop := (c < 128)%N.

(** Decimal digits of a natural number, as [str(n)] prints them. *)
Definition digit (n : nat) : N := (48 + N.of_nat n)%N.

Fixpoint decimal_fuel (fuel n : nat) (acc : str) : str :=
  match fuel with
  | O => acc
  | S fuel' =>
      let acc' := digit (n mod 10) :: acc in
      if n <? 10 then acc' else decimal_fuel fuel' (n / 10) acc'
  end.

Definition decimal (n : nat) : str := decimal_fuel (S n) n [].

Definition newline : N := 10%N.
Definition ellipsis : str := lit "...".

(** The truncation rule of the extractor:
    [s[:limit] + "..." if len(s) > limit else s]. *)
Definition truncate (limit : nat) (s : str) : str :=
  if limit <? length s then take limit s ++ ellipsis else s.

(** ** Exceptions and results *)

Inductive exn :=
| AttributeError | TypeError | KeyError | ValueError | JSONDecodeError
| RecursionError | UnicodeDecodeError | UnicodeEncodeError | OSError.

Inductive result (A : Type) :=
| Ok (a : A)
| Raise (e : exn).
Arguments Ok {A} a.
Arguments Raise {A} e.

Definition bind {A B} (r : result A) (k : A -> result B) : result B :=
  match r with
  | Ok a => k a
  | Raise e => Raise e
  end.

Notation "'let*' x ':=' r 'in' k" := (bind r (fun x => k))
  (at level 10, x name, r at level 100, k at level 200).

(** ** Python values decoded from JSON

    [json.loads] yields [None], [bool], [int], [float], [str], [list] and
    [dict] with string keys.  A [dict] keeps its insertion order, so it is an
    association list; [json.loads] never repeats a key ([wf_value]). A float
    is an IEEE binary64 value, given by the Standard Library's [spec_float]. *)

Inductive value :=
| VNone
| VBool (b : bool)
| VInt (z : Z)
| VFloat (f : spec_float)
| VStr (s : str)
| VList (l : list value)
| VDict (d : list (str * value)).

Abbreviation dict := (list (str * value)).

Definition str_eqb (s t : str) : bool := bool_decide (s = t).

Fixpoint dict_lookup (k : str) (d : dict) : option value :=
  match d with
  | [] => None
  | (k', v) :: r => if str_eqb k' k then Some v else dict_lookup k r
  end.

(** [d.get(k, default)] *)
Definition get (d : dict) (k : string) (default : value) : value :=
  match dict_lookup (lit k) d with
  | Some v => v
  | None => default
  end.

(** [k in d] *)
Definition has_key (k : string) (d : dict) : bool :=
  match dict_lookup (lit k) d with
  | Some _ => true
  | None => false
  end.

(** Truth value of an object, as [if x:] tests it. *)
Definition truthy (v : value) : bool :=
  match v with
  | VNone => false
  | VBool b => b
  | VInt z => negb (z =? 0)%Z
  | VFloat (S754_zero _) => false
  | VFloat _ => true
  | VStr s => negb (length s =? 0)
  | VList l => negb (length l =? 0)
  | VDict d => negb (length d =? 0)
  end.

(** Numbers compare by value across [bool], [int] and [float]. *)
Inductive num :=
| NumInt (z : Z)
| NumFloat (f : spec_float).

Definition as_num (v : value) : option num :=
  match v with
  | VBool b => Some (NumInt (if b then 1 else 0)%Z)
  | VInt z => Some (NumInt z)
  | VFloat f => Some (NumFloat f)
  | _ => None
  end.

(** [int == float]: exact, the float must be that integer. *)
Definition int_float_eq (z : Z) (f : spec_float) : bool :=
  match f with
  | S754_zero _ => (z =? 0)%Z
  | S754_finite s m e =>
      let sm := if s then Z.neg m else Z.pos m in
      if (0 <=? e)%Z then (z =? sm * 2 ^ e)%Z
      else (z * 2 ^ (- e) =? sm)%Z
  | _ => false
  end.

(** Floats: IEEE equality, and the one NaN object [json.loads] returns is
    found equal to itself by the identity test of [in] and of [set]. *)
Definition float_same (f g : spec_float) : bool :=
  match f, g with
  | S754_nan, S754_nan => true
  | _, _ => SFeqb f g
  end.

Definition num_same (x y : num) : bool :=
  match x, y with
  | NumInt a, NumInt b => (a =? b)%Z
  | NumFloat f, NumFloat g => float_same f g
  | NumInt a, NumFloat f => int_float_eq a f
  | NumFloat f, NumInt a => int_float_eq a f
  end.

(** [a is b or a == b], the test behind [x in list], [set] insertion and the
    comparison of list elements and dict values. *)
Fixpoint py_same (a b : value) {struct a} : bool :=
  match a, b with
  | VNone, VNone => true
  | VStr s, VStr t => str_eqb s t
  | VList l1, VList l2 =>
      (fix go (l1 l2 : list value) {struct l1} : bool :=
         match l1, l2 with
         | [], [] => true
         | x :: r1, y :: r2 => py_same x y && go r1 r2
         | _, _ => false
         end) l1 l2
  | VDict d1, VDict d2 =>
      (length d1 =? length d2)
      && (fix go (d : dict) {struct d} : bool :=
            match d with
            | [] => true
            | (k, v) :: r =>
                match dict_lookup k d2 with
                | Some w => py_same v w
                | None => false
                end && go r
            end) d1
  | _, _ =>
      match as_num a, as_num b with
      | Some x, Some y => num_same x y
      | _, _ => false
      end
  end.

(** [a == b]: as [py_same], but NaN is not equal to itself. *)
Definition py_eq (a b : value) : bool :=
  match a, b with
  | VFloat S754_nan, VFloat S754_nan => false
  | _, _ => py_same a b
  end.

(** [x in l] for a list [l]: each item is compared with [x]. *)
Definition py_in (x : value) (l : list value) : bool :=
  existsb (fun item => py_same item x) l.

(** The list's [append] guarded by [not in]. *)
Definition add_unique (l : list value) (x : value) : list value :=
  if py_in x l then l else l ++ [x].

(** [hash(v)] succeeds on everything but lists and dicts. *)
Definition hashable (v : value) : bool :=
  match v with
  | VList _ | VDict _ => false
  | _ => true
  end.

(** [len(v)] *)
Definition py_len (v : value) : result nat :=
  match v with
  | VStr s => Ok (length s)
  | VList l => Ok (length l)
  | VDict d => Ok (length d)
  | _ => Raise TypeError
  end.

(** Every dict inside the value has distinct keys, as [json.loads] builds
    them. *)
Fixpoint wf_value (v : value) : Prop :=
  match v with
  | VList l => (fix all (l : list value) : Prop :=
                  match l with
                  | [] => True
                  | x :: r => wf_value x /\ all r
                  end) l
  | VDict d => NoDup (map fst d)
               /\ (fix all (d : dict) : Prop :=
                     match d with
                     | [] => True
                     | (_, x) :: r => wf_value x /\ all r
                     end) d
  | _ => True
  end.

(** ** What the interpreter and the operating system provide

    The hook relies on library behaviour that is given here as an interface:
    full Unicode lower-casing, [repr], the iteration order of a [set], the
    JSON codec, the open file descriptors, and the session-log-directory
    helper of [utils.constants]. *)

Inductive read_event :=
| Line (s : str)
| ReadFails (e : exn).

(** What reading a text file yields: its lines, each with its terminator,
    possibly cut short by a failure. *)
Abbreviation file := (list read_event).

(** The files of the session, by path. *)
Abbreviation filesystem := (gmap str file).

Class Runtime := {
  (** [s.lower()] *)
  py_lower : str -> str;
  (** [repr(v)], which is [str(v)] for every object that is not a string. *)
  py_repr : value -> str;
  (** [list(set(l))] for a list [l] of pairwise different hashable objects:
      the same elements in the order of the hash table. *)
  set_order : list value -> list value;
  (** [json.loads(text)] *)
  json_loads : str -> result value;
  (** [json.dumps(v, indent=2)] *)
  json_dumps : value -> str;
  (** What reading file descriptor [n] yields, when it is open. *)
  fd_file : Z -> option file;
  (** Whether a slice object can be hashed: not on Python 3.11, the oldest
      interpreter the script header admits, and on every later one. *)
  slices_hashable : bool;
  (** Whether the encoding of a file opened in text mode, the locale's, has
      an encoding of the text; [f.write] raises [UnicodeEncodeError] when it
      has none, as on a lone surrogate. *)
  file_encodable : str -> bool;
  (** The same for the encoding of standard output. *)
  stdout_encodable : str -> bool;
  (** Modelled from the spec: [utils.constants.ensure_session_log_dir], not
      part of the sources, "given a session identifier, returns a writable
      directory"; here the path of that directory. *)
  ensure_session_log_dir : value -> result str
}.

(** [py_lower] agrees with ASCII lower-casing on ASCII text. *)
Definition lower_ascii_law `{Runtime} : Prop :=
  forall s, Forall is_ascii s -> py_lower s = map ascii_lower s.

(** [set_order] only reorders. *)
Definition set_order_law `{Runtime} : Prop :=
  forall l, Permutation (set_order l) l.

Section Hook.
Context `{RT : Runtime}.

(** [v[:n] + "..."]: a string is cut and extended; a list cannot be
    concatenated with a string; a dict cannot be sliced: it looks the slice
    up as a key, which raises [TypeError] when the slice cannot be hashed
    and [KeyError] when it can (the keys of a decoded object are strings). *)
Definition slice_add_ellipsis (n : nat) (v : value) : result value :=
  match v with
  | VStr s => Ok (VStr (take n s ++ ellipsis))
  | VDict _ => Raise (if slices_hashable then KeyError else TypeError)
  | _ => Raise TypeError
  end.

(** [str(v)] *)
Definition py_str (v : value) : str :=
  match v with
  | VStr s => s
  | _ => py_repr v
  end.

(** [list(set(l))]: [set] hashes every element, keeps the first of equal
    ones, and is listed in hash-table order. *)
Definition list_set (l : list value) : result (list value) :=
  if forallb hashable l then Ok (set_order (fold_left add_unique l []))
  else Raise TypeError.

(** ** TranscriptReader: [parse_transcript] *)

(** The [for line in f] loop. An exception that is not [JSONDecodeError],
    and a failing read, leave the loop through the outer handler. *)
Fixpoint read_loop (events : file) (messages : list value) : list value :=
  match events with
  | [] => messages
  | ReadFails _ :: _ => messages
  | Line line :: rest =>
      let line := strip line in
      if negb (length line =? 0) then
        match json_loads line with
        | Ok v => read_loop rest (messages ++ [v])
        | Raise JSONDecodeError => read_loop rest messages
        | Raise _ => messages
        end
      else read_loop rest messages
  end.

(** [opened] is what [open(transcript_path, 'r')] gives: [None] when it
    raises. *)
Definition parse_transcript (opened : option file) : list value :=
  match opened with
  | None => []
  | Some events => read_loop events []
  end.

(** ** SessionInfoExtractor: [extract_session_info] *)

Record SessionInfo := {
  user_prompts : list str;
  tools_used : list value;
  files_modified : list value;
  files_created : list value;
  files_read : list value;
  commands_run : list value;
  errors_encountered : list str;
  total_messages : nat
}.

Definition initial_info (n : nat) : SessionInfo :=
  {| user_prompts := []; tools_used := []; files_modified := [];
     files_created := []; files_read := []; commands_run := [];
     errors_encountered := []; total_messages := n |}.

Definition set_user_prompts (info : SessionInfo) (l : list str) : SessionInfo :=
  {| user_prompts := l; tools_used := tools_used info;
     files_modified := files_modified info;
     files_created := files_created info; files_read := files_read info;
     commands_run := commands_run info;
     errors_encountered := errors_encountered info;
     total_messages := total_messages info |}.

Definition set_tools_used (info : SessionInfo) (l : list value) : SessionInfo :=
  {| user_prompts := user_prompts info; tools_used := l;
     files_modified := files_modified info;
     files_created := files_created info; files_read := files_read info;
     commands_run := commands_run info;
     errors_encountered := errors_encountered info;
     total_messages := total_messages info |}.

Definition set_files_modified (info : SessionInfo) (l : list value) : SessionInfo :=
  {| user_prompts := user_prompts info; tools_used := tools_used info;
     files_modified := l;
     files_created := files_created info; files_read := files_read info;
     commands_run := commands_run info;
     errors_encountered := errors_encountered info;
     total_messages := total_messages info |}.

Definition set_files_read (info : SessionInfo) (l : list value) : SessionInfo :=
  {| user_prompts := user_prompts info; tools_used := tools_used info;
     files_modified := files_modified info;
     files_created := files_created info; files_read := l;
     commands_run := commands_run info;
     errors_encountered := errors_encountered info;
     total_messages := total_messages info |}.

Definition set_commands_run (info : SessionInfo) (l : list value) : SessionInfo :=
  {| user_prompts := user_prompts info; tools_used := tools_used info;
     files_modified := files_modified info;
     files_created := files_created info; files_read := files_read info;
     commands_run := l;
     errors_encountered := errors_encountered info;
     total_messages := total_messages info |}.

Definition set_errors_encountered (info : SessionInfo) (l : list str) : SessionInfo :=
  {| user_prompts := user_prompts info; tools_used := tools_used info;
     files_modified := files_modified info;
     files_created := files_created info; files_read := files_read info;
     commands_run := commands_run info;
     errors_encountered := l;
     total_messages := total_messages info |}.

(** [msg.get("type", default)] with the empty string as default. *)
Definition msg_type_of (msg : dict) : value := get msg "type" (VStr []).

(** Lines 69-75: extract user prompts. *)
Definition prompt_rule (msg : dict) (info : SessionInfo) : SessionInfo :=
  if py_eq (msg_type_of msg) (VStr (lit "human"))
     || py_eq (get msg "role" VNone) (VStr (lit "user"))
  then
    match get msg "content" (get msg "message" (VStr [])) with
    | VStr content =>
        if negb (length (strip content) =? 0)
        then set_user_prompts info (user_prompts info ++ [truncate 200 content])
        else info
    | _ => info
    end
  else info.

(** Lines 84-94: track file operations. *)
Definition file_rule (tool_name : value) (tool_input : dict)
    (info : SessionInfo) : SessionInfo :=
  let file_path := get tool_input "file_path" (get tool_input "path" (VStr [])) in
  if truthy file_path then
    if py_in tool_name [VStr (lit "Write"); VStr (lit "Edit"); VStr (lit "MultiEdit")]
    then set_files_modified info (add_unique (files_modified info) file_path)
    else if py_eq tool_name (VStr (lit "Read"))
    then set_files_read info (add_unique (files_read info) file_path)
    else info
  else info.

(** Lines 96-102: track bash commands. *)
Definition command_rule (tool_name : value) (tool_input : dict)
    (info : SessionInfo) : result SessionInfo :=
  if py_eq tool_name (VStr (lit "Bash")) then
    let command := get tool_input "command" (VStr []) in
    if truthy command then
      let* n := py_len command in
      let* cmd := (if 100 <? n then slice_add_ellipsis 100 command
                   else Ok command) in
      Ok (set_commands_run info (commands_run info ++ [cmd]))
    else Ok info
  else Ok info.

(** Lines 77-102: extract tool usage. *)
Definition tool_rule (msg : dict) (info : SessionInfo) : result SessionInfo :=
  if py_eq (msg_type_of msg) (VStr (lit "tool_use")) || has_key "tool" msg
  then
    let tool_name := get msg "name" (get msg "tool" (VStr [])) in
    if truthy tool_name then
      let info := set_tools_used info (add_unique (tools_used info) tool_name) in
      match get msg "input" (VDict []) with
      | VDict tool_input =>
          command_rule tool_name tool_input (file_rule tool_name tool_input info)
      | _ => Ok info
      end
    else Ok info
  else Ok info.

(** Lines 104-109: extract errors. *)
Definition error_rule (msg : dict) (info : SessionInfo) : SessionInfo :=
  if py_eq (msg_type_of msg) (VStr (lit "tool_result"))
     || contains (lit "error") (py_lower (py_str (VDict msg)))
  then
    let content := py_str (get msg "content" (get msg "output" (VStr []))) in
    if contains (lit "error") (py_lower content)
       || contains (lit "failed") (py_lower content)
    then set_errors_encountered info
           (errors_encountered info ++ [truncate 150 content])
    else info
  else info.

(** One iteration of [for msg in messages]. A record that is not a dict has
    no [get]. *)
Definition step (info : SessionInfo) (msg : value) : result SessionInfo :=
  match msg with
  | VDict d =>
      let* info2 := tool_rule d (prompt_rule d info) in
      Ok (error_rule d info2)
  | _ => Raise AttributeError
  end.

Fixpoint accumulate (messages : list value) (info : SessionInfo)
    : result SessionInfo :=
  match messages with
  | [] => Ok info
  | msg :: rest => let* info' := step info msg in accumulate rest info'
  end.

(** Lines 111-115: deduplicate and limit. *)
Definition post_pass (info : SessionInfo) : result SessionInfo :=
  let* modified := list_set (files_modified info) in
  let* read := list_set (files_read info) in
  Ok {| user_prompts := user_prompts info;
        tools_used := tools_used info;
        files_modified := take 20 modified;
        files_created := files_created info;
        files_read := take 20 read;
        commands_run := take 15 (commands_run info);
        errors_encountered := take 10 (errors_encountered info);
        total_messages := total_messages info |}.

Definition extract_session_info (messages : list value) : result SessionInfo :=
  let* info := accumulate messages (initial_info (length messages)) in
  post_pass info.

(** ** SummaryRenderer: [generate_summary] *)

(** [datetime.now()] *)
Record datetime := {
  year : nat; month : nat; day : nat;
  hour : nat; minute : nat; second : nat; microsecond : nat
}.

(** Zero-padded decimal of at least [width] digits. *)
Definition pad (width n : nat) : str :=
  let d := decimal n in
  repeat (digit 0) (width - length d) ++ d.

(** [now.strftime('%Y-%m-%d %H:%M:%S')] *)
Definition strftime (now : datetime) : str :=
  decimal (year now) ++ lit "-" ++ pad 2 (month now) ++ lit "-"
  ++ pad 2 (day now) ++ lit " " ++ pad 2 (hour now) ++ lit ":"
  ++ pad 2 (minute now) ++ lit ":" ++ pad 2 (second now).

(** [now.isoformat()] *)
Definition isoformat (now : datetime) : str :=
  pad 4 (year now) ++ lit "-" ++ pad 2 (month now) ++ lit "-"
  ++ pad 2 (day now) ++ lit "T" ++ pad 2 (hour now) ++ lit ":"
  ++ pad 2 (minute now) ++ lit ":" ++ pad 2 (second now)
  ++ (if microsecond now =? 0 then [] else lit "." ++ pad 6 (microsecond now)).

Definition banner : str := repeat 61%N 60.

(** The pencil, warning-sign and bullet literals of the source. *)
Definition pencil : str := lit "  " ++ [9999%N; 65039%N] ++ lit "  ".
Definition warning : str := lit "  " ++ [9888%N; 65039%N] ++ lit "  ".
Definition bullet : str := lit "  " ++ [8226%N] ++ lit " ".

(** [enumerate(prompts, i)] rendered as the numbered lines. *)
Fixpoint numbered (i : nat) (prompts : list str) : list str :=
  match prompts with
  | [] => []
  | prompt :: rest =>
      let clean_prompt := strip (replace_char newline 32%N prompt) in
      (lit "  " ++ decimal i ++ lit ". " ++ clean_prompt) :: numbered (S i) rest
  end.

(** [', '.join(l)] over objects: every item has to be a string. *)
Fixpoint join_values (l : list value) : result (list str) :=
  match l with
  | [] => Ok []
  | VStr s :: rest => let* r := join_values rest in Ok (s :: r)
  | _ :: _ => Raise TypeError
  end.

Definition requested_section (info : SessionInfo) : list str :=
  match user_prompts info with
  | [] => []
  | _ :: _ =>
      [lit "## What Was Requested"]
      ++ numbered 1 (take 5 (user_prompts info))
      ++ (if 5 <? length (user_prompts info)
          then [lit "  ... and " ++ decimal (length (user_prompts info) - 5)
                ++ lit " more prompts"]
          else [])
      ++ [[]]
  end.

Definition modified_section (info : SessionInfo) : list str :=
  match files_modified info with
  | [] => []
  | _ :: _ =>
      [lit "## Files Modified"]
      ++ map (fun f => pencil ++ py_str f) (take 10 (files_modified info))
      ++ (if 10 <? length (files_modified info)
          then [lit "  ... and " ++ decimal (length (files_modified info) - 10)
                ++ lit " more files"]
          else [])
      ++ [[]]
  end.

Definition tools_section (info : SessionInfo) : result (list str) :=
  match tools_used info with
  | [] => Ok []
  | _ :: _ =>
      let* names := join_values (tools_used info) in
      Ok [lit "## Tools Used"; lit "  " ++ join (lit ", ") names; []]
  end.

Definition commands_section (info : SessionInfo) : list str :=
  match commands_run info with
  | [] => []
  | _ :: _ =>
      [lit "## Commands Executed"]
      ++ map (fun cmd => lit "  $ " ++ py_str cmd) (take 5 (commands_run info))
      ++ (if 5 <? length (commands_run info)
          then [lit "  ... and " ++ decimal (length (commands_run info) - 5)
                ++ lit " more commands"]
          else [])
      ++ [[]]
  end.

Definition errors_section (info : SessionInfo) : list str :=
  match errors_encountered info with
  | [] => []
  | _ :: _ =>
      [lit "## Errors Encountered"]
      ++ map (fun err => warning ++ take 100 err)
           (take 3 (errors_encountered info))
      ++ [[]]
  end.

Definition statistics_section (info : SessionInfo) : list str :=
  [lit "## Statistics";
   bullet ++ lit "Total messages: " ++ decimal (total_messages info);
   bullet ++ lit "Files modified: " ++ decimal (length (files_modified info));
   bullet ++ lit "Files read: " ++ decimal (length (files_read info));
   bullet ++ lit "Commands run: " ++ decimal (length (commands_run info));
   []].

(** The items appended to [summary] after the timestamp line. *)
Definition summary_body (info : SessionInfo) : result (list str) :=
  let* tools := tools_section info in
  Ok ([[]] ++ requested_section info ++ modified_section info ++ tools
      ++ commands_section info ++ errors_section info
      ++ statistics_section info ++ [banner]).

Definition summary_head (now : datetime) : list str :=
  [banner; lit "SESSION SUMMARY"; banner; lit "Generated: " ++ strftime now].

Definition generate_summary (info : SessionInfo) (now : datetime)
    : result str :=
  let* body := summary_body info in
  Ok (join [newline] (summary_head now ++ body)).

(** ** PersistenceWriter: [save_summary] *)

(** The lines a file holds once [text] has been written to it. *)
Fixpoint text_lines (current : str) (text : str) : list str :=
  match text with
  | [] => match current with [] => [] | _ :: _ => [rev current] end
  | c :: rest =>
      if (c =? newline)%N then rev (c :: current) :: text_lines [] rest
      else text_lines (c :: current) rest
  end.

Definition written (text : str) : file := map Line (text_lines [] text).

(** [f.read()] *)
Fixpoint read_all (f : file) : result str :=
  match f with
  | [] => Ok []
  | Line s :: rest => let* r := read_all rest in Ok (s ++ r)
  | ReadFails e :: _ => Raise e
  end.

(** [log_dir / name] *)
Definition path_join (dir : str) (name : string) : str :=
  dir ++ lit "/" ++ lit name.

(** The [info] dict as the JSON encoder sees it. *)
Definition info_value (info : SessionInfo) : value :=
  VDict [(lit "user_prompts", VList (map VStr (user_prompts info)));
         (lit "tools_used", VList (tools_used info));
         (lit "files_modified", VList (files_modified info));
         (lit "files_created", VList (files_created info));
         (lit "files_read", VList (files_read info));
         (lit "commands_run", VList (commands_run info));
         (lit "errors_encountered", VList (map VStr (errors_encountered info)));
         (lit "total_messages", VInt (Z.of_nat (total_messages info)))].

(** Lines 184-197. [open(summary_file, 'w')] empties the file; [f.write]
    encodes the whole text before anything reaches the file, so a text
    without an encoding leaves the file empty, and the exception skips the
    structured snapshot. The snapshot itself is ASCII ([json.dump] escapes
    everything else) and is always encodable. *)
Definition save_summary (log_dir : str) (summary : str) (info : SessionInfo)
    (now : datetime) (fs : filesystem) : filesystem * result unit :=
  if file_encodable summary then
    let fs :=
      <[path_join log_dir "session_summary.txt" := written summary]> fs in
    (<[path_join log_dir "session_summary.json" :=
         written (json_dumps
                    (VDict [(lit "generated_at", VStr (isoformat now));
                            (lit "info", info_value info)]))]> fs,
     Ok tt)
  else
    (<[path_join log_dir "session_summary.txt" := []]> fs,
     Raise UnicodeEncodeError).

(** ** The driver: [main] *)

Record arguments := { chat : bool; summary : bool }.

Record outcome := {
  exit_status : Z;
  files_after : filesystem;
  stdout : list str;
  stderr : list exn
}.

(** [os.path.exists(v)]: a string is a path, an integer a file descriptor,
    anything else is rejected by [os.stat]. *)
Definition os_path_exists (fs : filesystem) (v : value) : result bool :=
  match v with
  | VStr p => Ok (bool_decide (is_Some (fs !! p)))
  | VInt z => Ok (bool_decide (is_Some (fd_file z)))
  | VBool b => Ok (bool_decide (is_Some (fd_file (if b then 1 else 0)%Z)))
  | _ => Raise TypeError
  end.

(** [open(v, 'r')], [None] when it raises. *)
Definition os_open (fs : filesystem) (v : value) : option file :=
  match v with
  | VStr p => fs !! p
  | VInt z => fd_file z
  | VBool b => fd_file (if b then 1 else 0)%Z
  | _ => None
  end.

(** Lines 221-229: the archive read back, or a fresh list. The handler
    takes [JSONDecodeError] and [ValueError] with its subclasses. *)
Definition caught_as_value_error (e : exn) : bool :=
  match e with
  | ValueError | JSONDecodeError | UnicodeDecodeError
  | UnicodeEncodeError => true
  | _ => false
  end.

Definition load_archive (fs : filesystem) (log_path : str) : result value :=
  match fs !! log_path with
  | Some f =>
      match (let* text := read_all f in json_loads text) with
      | Ok v => Ok v
      | Raise e => if caught_as_value_error e then Ok (VList []) else Raise e
      end
  | None => Ok (VList [])
  end.

(** Lines 238-255: transcript processing, on the file system left by the
    archive write. Returns the files, what was printed, and how it ended.
    [print] encodes its argument for standard output and prints nothing
    when that raises. *)
Definition process_transcript (args : arguments) (log_dir : str)
    (transcript_path : value) (now1 now2 : datetime) (fs : filesystem)
    : filesystem * list str * result unit :=
  if truthy transcript_path then
    match os_path_exists fs transcript_path with
    | Raise e => (fs, [], Raise e)
    | Ok false => (fs, [], Ok tt)
    | Ok true =>
        let messages := parse_transcript (os_open fs transcript_path) in
        let fs :=
          if chat args && negb (length messages =? 0)
          then <[path_join log_dir "chat.json" :=
                   written (json_dumps (VList messages))]> fs
          else fs in
        if summary args && negb (length messages =? 0) then
          match extract_session_info messages with
          | Raise e => (fs, [], Raise e)
          | Ok info =>
              match generate_summary info now1 with
              | Raise e => (fs, [], Raise e)
              | Ok text =>
                  match save_summary log_dir text info now2 fs with
                  | (fs, Raise e) => (fs, [], Raise e)
                  | (fs, Ok _) =>
                      if stdout_encodable ([newline] ++ text)
                      then (fs, [[newline] ++ text], Ok tt)
                      else (fs, [], Raise UnicodeEncodeError)
                  end
              end
          end
        else (fs, [], Ok tt)
    end
  else (fs, [], Ok tt).

(** Lines 210-255, the body of the [try]. *)
Definition main_body (args : arguments) (stdin : str) (now1 now2 : datetime)
    (fs : filesystem) : filesystem * list str * result unit :=
  match json_loads stdin with
  | Raise e => (fs, [], Raise e)
  | Ok (VDict input_data) =>
      let session_id := get input_data "session_id" (VStr (lit "unknown")) in
      let transcript_path := get input_data "transcript_path" (VStr []) in
      match ensure_session_log_dir session_id with
      | Raise e => (fs, [], Raise e)
      | Ok log_dir =>
          let log_path := path_join log_dir "stop.json" in
          match load_archive fs log_path with
          | Raise e => (fs, [], Raise e)
          | Ok (VList log_data) =>
              let fs :=
                <[log_path :=
                    written (json_dumps
                               (VList (log_data ++ [VDict input_data])))]> fs in
              process_transcript args log_dir transcript_path now1 now2 fs
          | Ok _ => (fs, [], Raise AttributeError)
          end
      end
  | Ok _ => (fs, [], Raise AttributeError)
  end.

(** [main]: every way out of the [try] ends in [sys.exit(0)]; only an
    exception other than [JSONDecodeError] is reported on the error stream. *)
Definition main (args : arguments) (stdin : str) (now1 now2 : datetime)
    (fs : filesystem) : outcome :=
  match main_body args stdin now1 now2 fs with
  | (fs', out, Ok _) =>
      {| exit_status := 0; files_after := fs'; stdout := out; stderr := [] |}
  | (fs', out, Raise JSONDecodeError) =>
      {| exit_status := 0; files_after := fs'; stdout := out; stderr := [] |}
  | (fs', out, Raise e) =>
      {| exit_status := 0; files_after := fs'; stdout := out; stderr := [e] |}
  end.

End Hook.

(** ** The specification's reading of the operations

    These follow the words of the specification, to be compared with the
    functions above. *)

Section Reading.
Context `{RT : Runtime}.

(** "One [record] per non-blank line that parses as a JSON value ...  A line
    that fails to parse is silently skipped". *)
Definition decoded_line (ev : read_event) : option value :=
  match ev with
  | Line line =>
      if negb (length (strip line) =? 0) then
        match json_loads (strip line) with
        | Ok v => Some v
        | Raise _ => None
        end
      else None
  | ReadFails _ => None
  end.

Definition decoded_lines (events : file) : list value :=
  omap decoded_line events.

(** An event at which the reader stops: the read fails, or decoding the line
    raises something other than [JSONDecodeError]. *)
Definition aborts (ev : read_event) : bool :=
  match ev with
  | Line line =>
      if negb (length (strip line) =? 0) then
        match json_loads (strip line) with
        | Ok _ | Raise JSONDecodeError => false
        | Raise _ => true
        end
      else false
  | ReadFails _ => true
  end.

(** The events before the first one at which the reader stops. *)
Fixpoint before_abort (events : file) : file :=
  match events with
  | [] => []
  | ev :: rest => if aborts ev then [] else ev :: before_abort rest
  end.

(** "Distinct tool names in first-seen order": keep the first name, drop its
    later occurrences, go on with the rest. *)
Fixpoint first_seen_fuel (fuel : nat) (l : list value) : list value :=
  match fuel, l with
  | S fuel', x :: rest =>
      x :: first_seen_fuel fuel' (filter (fun y => negb (py_same x y)) rest)
  | _, _ => []
  end.

Definition first_seen (l : list value) : list value :=
  first_seen_fuel (length l) l.

(** "A record is a tool invocation if its type tag equals tool_use, or if it
    carries any field literally named tool." *)
Definition is_tool_invocation (msg : dict) : bool :=
  py_eq (msg_type_of msg) (VStr (lit "tool_use")) || has_key "tool" msg.

(** "The tool identifier is read from a name field, falling back to a tool
    field", when the record is a tool invocation and the identifier is
    present. *)
Definition tool_identifier (msg : value) : option value :=
  match msg with
  | VDict d =>
      let name := get d "name" (get d "tool" (VStr [])) in
      if is_tool_invocation d && truthy name then Some name else None
  | _ => None
  end.

(** "Prompt detection": the text the record contributes as a prompt. *)
Definition captured_prompt (msg : value) : option str :=
  match msg with
  | VDict d =>
      if py_eq (msg_type_of d) (VStr (lit "human"))
         || py_eq (get d "role" VNone) (VStr (lit "user"))
      then
        match get d "content" (get d "message" (VStr [])) with
        | VStr content =>
            if negb (length (strip content) =? 0) then Some content else None
        | _ => None
        end
      else None
  | _ => None
  end.

(** The [input] object of a tool invocation with an identifier. *)
Definition tool_input_of (msg : value) : option (value * dict) :=
  match msg with
  | VDict d =>
      match tool_identifier msg, get d "input" (VDict []) with
      | Some name, VDict tool_input => Some (name, tool_input)
      | _, _ => None
      end
  | _ => None
  end.

(** The command a shell-execution record carries. *)
Definition captured_command (msg : value) : option value :=
  match tool_input_of msg with
  | Some (name, tool_input) =>
      let command := get tool_input "command" (VStr []) in
      if py_eq name (VStr (lit "Bash")) && truthy command
      then Some command else None
  | None => None
  end.

(** "Error detection": the stringified content the record contributes. *)
Definition captured_error (msg : value) : option str :=
  match msg with
  | VDict d =>
      let content := py_str (get d "content" (get d "output" (VStr []))) in
      if (py_eq (msg_type_of d) (VStr (lit "tool_result"))
          || contains (lit "error") (py_lower (py_str (VDict d))))
         && (contains (lit "error") (py_lower content)
             || contains (lit "failed") (py_lower content))
      then Some content else None
  | _ => None
  end.

(** The path a mutation-tool record (write-whole-file, single-edit or
    multi-edit) carries. *)
Definition mutation_path (msg : value) : option value :=
  match tool_input_of msg with
  | Some (name, tool_input) =>
      let file_path :=
        get tool_input "file_path" (get tool_input "path" (VStr [])) in
      if py_in name [VStr (lit "Write"); VStr (lit "Edit"); VStr (lit "MultiEdit")]
         && truthy file_path
      then Some file_path else None
  | None => None
  end.

(** The path a read-tool record carries. *)
Definition read_path (msg : value) : option value :=
  match tool_input_of msg with
  | Some (name, tool_input) =>
      let file_path :=
        get tool_input "file_path" (get tool_input "path" (VStr [])) in
      if negb (py_in name [VStr (lit "Write"); VStr (lit "Edit");
                           VStr (lit "MultiEdit")])
         && py_eq name (VStr (lit "Read")) && truthy file_path
      then Some file_path else None
  | None => None
  end.

(** What [commands_run] keeps of a command: a string under the truncation
    rule, any other object as it is. *)
Definition stored_command (command : value) : value :=
  match command with
  | VStr s => VStr (truncate 100 s)
  | _ => command
  end.

(** What one record adds to each list. *)
Definition prompt_of (msg : value) : list str :=
  match captured_prompt msg with Some c => [truncate 200 c] | None => [] end.

Definition command_of (msg : value) : list value :=
  match captured_command msg with Some c => [stored_command c] | None => [] end.

Definition error_of (msg : value) : list str :=
  match captured_error msg with Some c => [truncate 150 c] | None => [] end.

Definition add_opt (l : list value) (o : option value) : list value :=
  match o with Some x => add_unique l x | None => l end.

(** What the loop body makes of [info] on one record, when it does not
    raise. *)
Definition advance (info : SessionInfo) (msg : value) : SessionInfo :=
  {| user_prompts := user_prompts info ++ prompt_of msg;
     tools_used := add_opt (tools_used info) (tool_identifier msg);
     files_modified := add_opt (files_modified info) (mutation_path msg);
     files_created := files_created info;
     files_read := add_opt (files_read info) (read_path msg);
     commands_run := commands_run info ++ command_of msg;
     errors_encountered := errors_encountered info ++ error_of msg;
     total_messages := total_messages info |}.

(** No two entries of [l] are equal to the membership test of the source. *)
Definition pairwise_distinct (l : list value) : Prop :=
  forall i j x y, i < j -> l !! i = Some x -> l !! j = Some y ->
                  py_same x y = false.

(** The envelope [{"session_id": "s1", "transcript_path": p}]. *)
Definition stop_envelope (p : str) : dict :=
  [(lit "session_id", VStr (lit "s1")); (lit "transcript_path", VStr p)].

(** The entries the archive holds when the run starts, told from the file:
    the elements of the JSON array the file decodes to; none when there is
    no file, and none when reading or decoding the file raises
    [JSONDecodeError] or another [ValueError]. A file that decodes to
    anything but an array holds no entries in this sense. *)
Inductive archive_holds (fs : filesystem) (log_path : str)
    : list value -> Prop :=
| archive_absent :
    fs !! log_path = None ->
    archive_holds fs log_path []
| archive_array f text entries :
    fs !! log_path = Some f ->
    read_all f = Ok text ->
    json_loads text = Ok (VList entries) ->
    archive_holds fs log_path entries
| archive_undecodable f e :
    fs !! log_path = Some f ->
    (let* text := read_all f in json_loads text) = Raise e ->
    caught_as_value_error e = true ->
    archive_holds fs log_path [].

(** A prompt record as the specification words it: type [human] or role
    [user], with string content that is not empty. *)
Definition prompt_shaped_as_worded (msg : value) : bool :=
  match msg with
  | VDict d =>
      (py_eq (msg_type_of d) (VStr (lit "human"))
       || py_eq (get d "role" VNone) (VStr (lit "user")))
      && match get d "content" (get d "message" (VStr [])) with
         | VStr content => negb (length content =? 0)
         | _ => false
         end
  | _ => false
  end.

(** A record on which no rule of the extractor can raise: an object whose
    [input], when it is an object, carries a hashable path and a command
    that is a string or is absent or empty. *)
Definition plain_command (command : value) : bool :=
  match command with
  | VStr _ => true
  | _ => negb (truthy command)
  end.

Definition plain_record (msg : value) : bool :=
  match msg with
  | VDict d =>
      match get d "input" (VDict []) with
      | VDict tool_input =>
          hashable (get tool_input "file_path" (get tool_input "path" (VStr [])))
          && plain_command (get tool_input "command" (VStr []))
      | _ => true
      end
  | _ => false
  end.

(** The text with its fourth line, the generation timestamp, left out. *)
Fixpoint split_lines (current : str) (text : str) : list str :=
  match text with
  | [] => [rev current]
  | c :: rest =>
      if (c =? newline)%N then rev current :: split_lines [] rest
      else split_lines (c :: current) rest
  end.

Definition without_timestamp (rendered : result str) : result (list str) :=
  let* text := rendered in
  let lines := split_lines [] text in
  Ok (take 3 lines ++ drop 4 lines).

End Reading.

(** ** A runtime to evaluate the hook on examples

    [py_lower] and [json_loads] do what CPython does on the texts used in
    the examples below (ASCII text; the literals [null], [true], [false],
    integer literals with CPython's limit of 4300 digits, and the two object
    texts of [sample_texts]); [py_repr] and [json_dumps] print values in a
    compact form. The interpreter is Python 3.11, where a slice cannot be
    hashed; files and standard output are encoded in UTF-8. *)

Module Sample.

Definition quoted (s : string) : str := [34%N] ++ lit s ++ [34%N].

Definition missing_path : string := "/tmp/no-such-transcript.jsonl".

(** [{"session_id": "s1", "transcript_path": "/tmp/no-such-transcript.jsonl"}] *)
Definition envelope_text : str :=
  lit "{" ++ quoted "session_id" ++ lit ": " ++ quoted "s1" ++ lit ", "
  ++ quoted "transcript_path" ++ lit ": " ++ quoted missing_path ++ lit "}".

Definition envelope : dict :=
  [(lit "session_id", VStr (lit "s1"));
   (lit "transcript_path", VStr (lit missing_path))].

(** [{"type":"tool_result","content":"Build failed: missing semicolon"}] *)
Definition build_failed_text : str :=
  lit "{" ++ quoted "type" ++ lit ":" ++ quoted "tool_result" ++ lit ","
  ++ quoted "content" ++ lit ":" ++ quoted "Build failed: missing semicolon"
  ++ lit "}".

Definition build_failed_content : str :=
  lit "Build failed: missing semicolon".

Definition build_failed : value :=
  VDict [(lit "type", VStr (lit "tool_result"));
         (lit "content", VStr build_failed_content)].

Definition sample_texts : list (str * value) :=
  [(lit "null", VNone); (lit "true", VBool true); (lit "false", VBool false);
   (envelope_text, VDict envelope); (build_failed_text, build_failed)].

Definition is_digit (c : N) : bool := ((48 <=? c) && (c <=? 57))%N.

Definition digits_value (s : str) : Z :=
  fold_left (fun acc c => (10 * acc + (Z.of_N c - 48))%Z) s 0%Z.

Definition loads (text : str) : result value :=
  match text with
  | c :: rest =>
      if forallb is_digit text then
        if (c =? 48)%N && negb (length rest =? 0) then Raise JSONDecodeError
        else if 4300 <? length text then Raise ValueError
        else Ok (VInt (digits_value text))
      else
        match dict_lookup text sample_texts with
        | Some v => Ok v
        | None => Raise JSONDecodeError
        end
  | [] => Raise JSONDecodeError
  end.

Fixpoint repr (v : value) : str :=
  match v with
  | VNone => lit "None"
  | VBool b => if b then lit "True" else lit "False"
  | VInt z => (if (z <? 0)%Z then lit "-" else []) ++ decimal (Z.abs_nat z)
  | VFloat f =>
      match f with
      | S754_nan => lit "nan"
      | S754_infinity s => if s then lit "-inf" else lit "inf"
      | S754_zero s => if s then lit "-0.0" else lit "0.0"
      | S754_finite s m e =>
          (if s then lit "-" else []) ++ decimal (Pos.to_nat m) ++ lit "*2**"
          ++ (if (e <? 0)%Z then lit "-" else []) ++ decimal (Z.abs_nat e)
      end
  | VStr s => [39%N] ++ s ++ [39%N]
  | VList l => lit "[" ++ join (lit ", ") (map repr l) ++ lit "]"
  | VDict d =>
      lit "{"
      ++ join (lit ", ")
           (map (fun kv => [39%N] ++ fst kv ++ [39%N] ++ lit ": " ++ repr (snd kv)) d)
      ++ lit "}"
  end.

(** UTF-8 has an encoding of every code point that is not a surrogate. *)
Definition utf8_encodable (s : str) : bool :=
  forallb (fun c => (c <? 55296)%N || (57343 <? c)%N) s.

Definition runtime : Runtime := {|
  py_lower := map ascii_lower;
  py_repr := repr;
  set_order := fun l => l;
  json_loads := loads;
  json_dumps := repr;
  fd_file := fun _ => None;
  slices_hashable := false;
  file_encodable := utf8_encodable;
  stdout_encodable := utf8_encodable;
  ensure_session_log_dir := fun session_id =>
    match session_id with
    | VStr s => Ok (lit "logs/" ++ s)
    | _ => Raise TypeError
    end
|}.

Definition human (content : string) : value :=
  VDict [(lit "type", VStr (lit "human")); (lit "content", VStr (lit content))].

Definition user_turn (content : string) : value :=
  VDict [(lit "role", VStr (lit "user")); (lit "content", VStr (lit content))].

Definition tool_use (name : string) (input : dict) : value :=
  VDict [(lit "type", VStr (lit "tool_use")); (lit "name", VStr (lit name));
         (lit "input", VDict input)].

Definition tool_result (content : string) : value :=
  VDict [(lit "type", VStr (lit "tool_result"));
         (lit "content", VStr (lit content))].

(** A short session: a prompt, two edits of one file, a shell command and
    a failing build. *)
Definition session : list value :=
  [human "Fix the parser";
   tool_use "Write" [(lit "file_path", VStr (lit "/src/parser.py"))];
   tool_use "Edit" [(lit "path", VStr (lit "/src/parser.py"))];
   tool_use "Read" [(lit "file_path", VStr (lit "/src/lexer.py"))];
   tool_use "Bash" [(lit "command", VStr (lit "make test"))];
   tool_use "Write" [(lit "file_path", VStr (lit "/src/lexer.py"))];
   build_failed].

(** Three prompts, the first of them blank, and two edits of one file. *)
Definition blank_prompt_session : list value :=
  [human " "; human "Fix the parser"; user_turn "and run the tests";
   tool_use "Write" [(lit "file_path", VStr (lit "/src/parser.py"))];
   tool_use "Edit" [(lit "file_path", VStr (lit "/src/parser.py"))]].

Definition three_prompt_session : list value :=
  [human "Rename the module"; human "Fix the parser";
   user_turn "and run the tests";
   tool_use "Write" [(lit "file_path", VStr (lit "/src/parser.py"))];
   tool_use "Edit" [(lit "file_path", VStr (lit "/src/parser.py"))]].

(** Ten failing tool results, then the build failure. *)
Definition eleven_errors : list value :=
  repeat (tool_result "error: disk full") 10 ++ [build_failed].

(** A transcript whose first line is an integer literal of 5000 digits and
    whose second line is [7]. *)
Definition huge_integer_transcript : file :=
  [Line (repeat 49%N 5000 ++ [newline]); Line (lit "7" ++ [newline])].

(** A transcript of three good lines around a blank and a malformed one. *)
Definition small_transcript : file :=
  [Line (lit "5" ++ [newline]); Line [newline];
   Line (lit "{oops" ++ [newline]); Line (build_failed_text ++ [newline]);
   Line (lit "null")].

Definition noon : datetime :=
  {| year := 2025; month := 3; day := 9; hour := 12; minute := 0;
     second := 7; microsecond := 0 |}.

End Sample.

(** ** Further readings of the operations *)

(** A record that is a JSON object. *)
Definition is_object (msg : value) : bool :=
  match msg with
  | VDict _ => true
  | _ => false
  end.

(** A command that lines 99-102 can store: a string of any length, or a list
    or dict of at most 100 entries (these have a length and are not
    sliced). *)
Definition storable_command (command : value) : bool :=
  match command with
  | VStr _ => true
  | VList l => length l <=? 100
  | VDict d => length d <=? 100
  | _ => false
  end.

(** A line of the transcript that the reader passes over: blank, or rejected
    by the decoder with [JSONDecodeError]. *)
Definition passed_over `{Runtime} (ev : read_event) : Prop :=
  exists line, ev = Line line
    /\ (strip line = [] \/ json_loads (strip line) = Raise JSONDecodeError).

(** ** A second runtime, for runs of the driver

    As [Sample.runtime], on a later interpreter, where a slice can be
    hashed, and with a decoder that also knows an envelope naming a
    transcript, two prompt records, and the archive text that the first run
    on that envelope writes. *)

Module Replay.

Definition transcript : string := "/logs/s1/transcript.jsonl".

(** [{"session_id": "s1", "transcript_path": "/logs/s1/transcript.jsonl"}] *)
Definition envelope_text : str :=
  lit "{" ++ Sample.quoted "session_id" ++ lit ": " ++ Sample.quoted "s1"
  ++ lit ", " ++ Sample.quoted "transcript_path" ++ lit ": "
  ++ Sample.quoted transcript ++ lit "}".

Definition envelope : dict :=
  [(lit "session_id", VStr (lit "s1"));
   (lit "transcript_path", VStr (lit transcript))].

(** [{"type":"human","content":"Fix the parser"}] *)
Definition prompt_text : str :=
  lit "{" ++ Sample.quoted "type" ++ lit ":" ++ Sample.quoted "human"
  ++ lit "," ++ Sample.quoted "content" ++ lit ":"
  ++ Sample.quoted "Fix the parser" ++ lit "}".

Definition archive_text : str := Sample.repr (VList [VDict envelope]).

(** [{"type":"human","content":"\ud83d"}]: the content is the escape of a
    lone surrogate, which the decoder turns into code point 55357. *)
Definition surrogate_text : str :=
  lit "{" ++ Sample.quoted "type" ++ lit ":" ++ Sample.quoted "human"
  ++ lit "," ++ Sample.quoted "content" ++ lit ":"
  ++ Sample.quoted "\ud83d" ++ lit "}".

Definition surrogate_prompt : value :=
  VDict [(lit "type", VStr (lit "human")); (lit "content", VStr [55357%N])].

Definition texts : list (str * value) :=
  [(envelope_text, VDict envelope);
   (prompt_text, Sample.human "Fix the parser");
   (surrogate_text, surrogate_prompt);
   (archive_text, VList [VDict envelope])].

Definition loads (text : str) : result value :=
  match dict_lookup text texts with
  | Some v => Ok v
  | None => Sample.loads text
  end.

Definition runtime : Runtime := {|
  py_lower := map ascii_lower;
  py_repr := Sample.repr;
  set_order := fun l => l;
  json_loads := loads;
  json_dumps := Sample.repr;
  fd_file := fun _ => None;
  slices_hashable := true;
  file_encodable := Sample.utf8_encodable;
  stdout_encodable := Sample.utf8_encodable;
  ensure_session_log_dir := fun session_id =>
    match session_id with
    | VStr s => Ok (lit "logs/" ++ s)
    | _ => Raise TypeError
    end
|}.

(** A transcript of a prompt and a failing build. *)
Definition good_transcript : file :=
  [Line (prompt_text ++ [newline]);
   Line (Sample.build_failed_text ++ [newline])].

(** A file system that holds the good transcript, and one that holds a
    transcript with records that are not objects. *)
Definition good_files : filesystem :=
  {[ lit transcript := good_transcript ]}.

Definition mixed_files : filesystem :=
  {[ lit transcript := Sample.small_transcript ]}.

(** Archives that are not arrays of envelopes. *)
Definition number_archive : filesystem :=
  {[ path_join (lit "logs/s1") "stop.json" := [Line (lit "5")] ]}.

Definition corrupt_archive : filesystem :=
  {[ path_join (lit "logs/s1") "stop.json" := [Line (lit "{oops")] ]}.

(** The archive as a first run on the envelope leaves it. *)
Definition archived_files : filesystem :=
  {[ path_join (lit "logs/s1") "stop.json" := written archive_text ]}.



Definition both_flags : arguments := {| chat := true; summary := true |}.
Definition no_flags : arguments := {| chat := false; summary := false |}.
Definition summary_flag : arguments := {| chat := false; summary := true |}.

End Replay.


(** * Properties *)

Section Properties.
Context `{RT : Runtime}.


Lemma truncate_length limit s :
  length (truncate limit s) <= limit + length ellipsis.
Proof.
  unfold truncate. destruct (limit <? length s) eqn:E.
  - apply Nat.ltb_lt in E. rewrite length_app, length_take. lia.
  - apply Nat.ltb_ge in E. lia.
Qed.

Lemma truncate_verbatim limit s : length s <= limit -> truncate limit s = s.
Proof.
  intros H. unfold truncate.
  destruct (limit <? length s) eqn:E; [|done].
  apply Nat.ltb_lt in E. lia.
Qed.

Lemma prompt_rule_spec d info :
  prompt_rule d info
  = set_user_prompts info (user_prompts info ++ prompt_of (VDict d)).
Proof.
  unfold prompt_rule, prompt_of, captured_prompt.
  destruct (py_eq (msg_type_of d) _ || py_eq _ _).
  - destruct (get d "content" _); try (rewrite app_nil_r; by destruct info).
    destruct (negb _); [reflexivity|]. rewrite app_nil_r; by destruct info.
  - rewrite app_nil_r. by destruct info.
Qed.

Lemma error_rule_spec d info :
  error_rule d info
  = set_errors_encountered info (errors_encountered info ++ error_of (VDict d)).
Proof.
  unfold error_rule, error_of, captured_error.
  destruct (py_eq (msg_type_of d) _ || contains _ (py_lower (py_str (VDict d))));
    cbn [andb].
  - destruct (contains _ _ || contains _ _); [reflexivity|].
    rewrite app_nil_r. by destruct info.
  - rewrite app_nil_r. by destruct info.
Qed.

Lemma file_rule_spec name d tool_input info :
  tool_input_of (VDict d) = Some (name, tool_input) ->
  file_rule name tool_input info
  = set_files_read
      (set_files_modified info
         (add_opt (files_modified info) (mutation_path (VDict d))))
      (add_opt (files_read info) (read_path (VDict d))).
Proof.
  intros H. unfold file_rule, mutation_path, read_path. rewrite H.
  destruct (truthy _); rewrite ?andb_false_r; cbn [add_opt];
    [|by destruct info].
  destruct (py_in name _); cbn [andb negb add_opt]; [by destruct info|].
  destruct (py_eq name _); by destruct info.
Qed.

Lemma command_rule_spec name d tool_input info info' :
  tool_input_of (VDict d) = Some (name, tool_input) ->
  command_rule name tool_input info = Ok info' ->
  info' = set_commands_run info (commands_run info ++ command_of (VDict d)).
Proof.
  intros H. unfold command_rule, command_of, captured_command. rewrite H.
  destruct (py_eq name _); cbn [andb];
    [|rewrite app_nil_r; intros [= <-]; by destruct info].
  destruct (truthy _); [|rewrite app_nil_r; intros [= <-]; by destruct info].
  destruct (get tool_input "command" (VStr []));
    cbn [py_len bind slice_add_ellipsis stored_command]; try discriminate.
  - unfold truncate. destruct (100 <? length s); cbn [bind]; congruence.
  - destruct (100 <? length l); cbn [bind]; [discriminate|congruence].
  - destruct (100 <? length d0); cbn [bind]; [discriminate|congruence].
Qed.

Lemma tool_rule_spec d info info' :
  tool_rule d info = Ok info' ->
  info' = {| user_prompts := user_prompts info;
             tools_used := add_opt (tools_used info) (tool_identifier (VDict d));
             files_modified :=
               add_opt (files_modified info) (mutation_path (VDict d));
             files_created := files_created info;
             files_read := add_opt (files_read info) (read_path (VDict d));
             commands_run := commands_run info ++ command_of (VDict d);
             errors_encountered := errors_encountered info;
             total_messages := total_messages info |}.
Proof.
  unfold tool_rule.
  destruct (tool_input_of (VDict d)) as [[name ti]|] eqn:Hin.
  - pose proof Hin as Hin'. revert Hin'.
    unfold tool_input_of, tool_identifier, is_tool_invocation.
    destruct (py_eq (msg_type_of d) _ || has_key "tool" d); [|discriminate].
    cbn [andb]. destruct (truthy _); [|discriminate].
    destruct (get d "input" (VDict [])); try discriminate.
    intros [= <- <-]. intros H.
    apply (command_rule_spec _ _ _ _ _ Hin) in H. subst info'.
    rewrite (file_rule_spec _ _ _ _ Hin). reflexivity.
  - unfold command_of, captured_command, mutation_path, read_path.
    rewrite Hin. revert Hin.
    unfold tool_input_of, tool_identifier, is_tool_invocation.
    destruct (py_eq (msg_type_of d) _ || has_key "tool" d); cbn [andb];
      [|intros _ [= <-]; rewrite app_nil_r; by destruct info].
    destruct (truthy _);
      [|intros _ [= <-]; rewrite app_nil_r; by destruct info].
    destruct (get d "input" (VDict [])); try discriminate;
      intros _ [= <-]; rewrite app_nil_r; reflexivity.
Qed.

Lemma step_spec info msg info' :
  step info msg = Ok info' -> info' = advance info msg.
Proof.
  destruct msg; try discriminate. unfold step.
  destruct (tool_rule d (prompt_rule d info)) as [info2|] eqn:Ht;
    [|discriminate].
  cbn [bind]. intros [= <-].
  apply tool_rule_spec in Ht. subst info2.
  rewrite error_rule_spec, prompt_rule_spec. reflexivity.
Qed.

Lemma step_is_object info msg info' :
  step info msg = Ok info' -> exists d, msg = VDict d.
Proof. destruct msg; try discriminate. eauto. Qed.

Lemma accumulate_spec msgs : forall info info',
  accumulate msgs info = Ok info' -> info' = fold_left advance msgs info.
Proof.
  induction msgs as [|msg msgs IH]; intros info info'; cbn [accumulate fold_left].
  - congruence.
  - destruct (step info msg) as [info1|] eqn:Hs; [|discriminate].
    cbn [bind]. intros H. apply step_spec in Hs. subst info1. by apply IH.
Qed.

Lemma accumulate_objects msgs : forall info info',
  accumulate msgs info = Ok info' -> Forall (fun m => exists d, m = VDict d) msgs.
Proof.
  induction msgs as [|msg msgs IH]; intros info info'; cbn [accumulate].
  - constructor.
  - destruct (step info msg) as [info1|] eqn:Hs; [|discriminate].
    cbn [bind]. intros H. constructor; [by eapply step_is_object|by eapply IH].
Qed.

(** The lists after the loop, one by one. *)
Lemma fold_user_prompts msgs : forall info,
  user_prompts (fold_left advance msgs info)
  = user_prompts info ++ concat (map prompt_of msgs).
Proof.
  induction msgs as [|m msgs IH]; intros info; cbn [fold_left map concat].
  - by rewrite app_nil_r.
  - rewrite IH. cbn [advance user_prompts]. by rewrite <- app_assoc.
Qed.

Lemma fold_commands_run msgs : forall info,
  commands_run (fold_left advance msgs info)
  = commands_run info ++ concat (map command_of msgs).
Proof.
  induction msgs as [|m msgs IH]; intros info; cbn [fold_left map concat].
  - by rewrite app_nil_r.
  - rewrite IH. cbn [advance commands_run]. by rewrite <- app_assoc.
Qed.

Lemma fold_errors_encountered msgs : forall info,
  errors_encountered (fold_left advance msgs info)
  = errors_encountered info ++ concat (map error_of msgs).
Proof.
  induction msgs as [|m msgs IH]; intros info; cbn [fold_left map concat].
  - by rewrite app_nil_r.
  - rewrite IH. cbn [advance errors_encountered]. by rewrite <- app_assoc.
Qed.

Lemma fold_add_opt (f : value -> option value) msgs : forall acc,
  fold_left (fun l m => add_opt l (f m)) msgs acc
  = fold_left add_unique (omap f msgs) acc.
Proof.
  induction msgs as [|m msgs IH]; intros acc; [done|].
  cbn [fold_left]. rewrite IH. simpl. destruct (f m); reflexivity.
Qed.

Lemma fold_tools_used msgs : forall info,
  tools_used (fold_left advance msgs info)
  = fold_left add_unique (omap tool_identifier msgs) (tools_used info).
Proof.
  intros info. rewrite <- fold_add_opt. revert info.
  induction msgs as [|m msgs IH]; intros info; cbn [fold_left]; [done|].
  by rewrite IH.
Qed.

Lemma fold_files_modified msgs : forall info,
  files_modified (fold_left advance msgs info)
  = fold_left add_unique (omap mutation_path msgs) (files_modified info).
Proof.
  intros info. rewrite <- fold_add_opt. revert info.
  induction msgs as [|m msgs IH]; intros info; cbn [fold_left]; [done|].
  by rewrite IH.
Qed.

Lemma fold_files_read msgs : forall info,
  files_read (fold_left advance msgs info)
  = fold_left add_unique (omap read_path msgs) (files_read info).
Proof.
  intros info. rewrite <- fold_add_opt. revert info.
  induction msgs as [|m msgs IH]; intros info; cbn [fold_left]; [done|].
  by rewrite IH.
Qed.

Lemma fold_files_created msgs : forall info,
  files_created (fold_left advance msgs info) = files_created info.
Proof.
  induction msgs as [|m msgs IH]; intros info; cbn [fold_left]; [done|].
  by rewrite IH.
Qed.

Lemma fold_total_messages msgs : forall info,
  total_messages (fold_left advance msgs info) = total_messages info.
Proof.
  induction msgs as [|m msgs IH]; intros info; cbn [fold_left]; [done|].
  by rewrite IH.
Qed.

(** What [extract_session_info] returns, field by field. *)
Lemma extract_spec msgs info :
  extract_session_info msgs = Ok info ->
  exists modified read,
    list_set (fold_left add_unique (omap mutation_path msgs) []) = Ok modified
    /\ list_set (fold_left add_unique (omap read_path msgs) []) = Ok read
    /\ user_prompts info = concat (map prompt_of msgs)
    /\ tools_used info = fold_left add_unique (omap tool_identifier msgs) []
    /\ files_modified info = take 20 modified
    /\ files_created info = []
    /\ files_read info = take 20 read
    /\ commands_run info = take 15 (concat (map command_of msgs))
    /\ errors_encountered info = take 10 (concat (map error_of msgs))
    /\ total_messages info = length msgs.
Proof.
  unfold extract_session_info.
  destruct (accumulate msgs _) as [acc|] eqn:Ha; [|discriminate].
  cbn [bind]. apply accumulate_spec in Ha. unfold post_pass.
  destruct (list_set (files_modified acc)) as [modified|] eqn:Hm;
    [|discriminate].
  destruct (list_set (files_read acc)) as [read|] eqn:Hr; [|discriminate].
  cbn [bind]. intros [= <-]. exists modified, read. subst acc.
  rewrite fold_files_modified in Hm. rewrite fold_files_read in Hr.
  rewrite fold_user_prompts, fold_tools_used, fold_files_created,
    fold_commands_run, fold_errors_encountered, fold_total_messages.
  cbn. repeat split; done.
Qed.

(** ** Caps and truncation *)

(** C2. For every input, the SessionInfo that [extract_session_info]
    returns has at most 20 modified files, at most 20 read files, at most 15
    commands and at most 10 errors. *)
Theorem extract_caps msgs info :
  extract_session_info msgs = Ok info ->
  length (files_modified info) <= 20
  /\ length (files_read info) <= 20
  /\ length (commands_run info) <= 15
  /\ length (errors_encountered info) <= 10.
Proof.
  intros H. apply extract_spec in H as (modified & read & _ & _ & _ & _ & Hm
    & _ & Hr & Hc & He & _).
  rewrite Hm, Hr, Hc, He, !length_take. lia.
Qed.

(** C10. [files_created] is empty in every SessionInfo that
    [extract_session_info] returns: no rule appends to it, and the records
    of the write-whole-file tool go to [files_modified]. *)
Theorem files_created_always_empty msgs info :
  extract_session_info msgs = Ok info -> files_created info = [].
Proof.
  intros H. by apply extract_spec in H as (? & ? & _ & _ & _ & _ & _ & ? & _).
Qed.

Lemma concat_prompt_of msgs :
  concat (map prompt_of msgs) = map (truncate 200) (omap captured_prompt msgs).
Proof.
  induction msgs as [|m msgs IH]; [done|]. simpl. rewrite IH.
  unfold prompt_of. by destruct (captured_prompt m).
Qed.

Lemma concat_command_of msgs :
  concat (map command_of msgs) = map stored_command (omap captured_command msgs).
Proof.
  induction msgs as [|m msgs IH]; [done|]. simpl. rewrite IH.
  unfold command_of. by destruct (captured_command m).
Qed.

Lemma concat_error_of msgs :
  concat (map error_of msgs) = map (truncate 150) (omap captured_error msgs).
Proof.
  induction msgs as [|m msgs IH]; [done|]. simpl. rewrite IH.
  unfold error_of. by destruct (captured_error m).
Qed.

Lemma elem_of_take_inv {A} (x : A) n l : x ∈ take n l -> x ∈ l.
Proof. intros H. rewrite <- (take_drop n l). apply elem_of_app. by left. Qed.

(** C3. The stored prompts, commands and errors are the captured strings
    under the truncation rule with limits 200, 100 and 150: each stored
    string is at most its limit plus the marker long, and a captured string
    at or under its limit is stored unchanged. *)
Theorem stored_strings_truncated msgs info :
  extract_session_info msgs = Ok info ->
  user_prompts info = map (truncate 200) (omap captured_prompt msgs)
  /\ commands_run info
     = take 15 (map stored_command (omap captured_command msgs))
  /\ errors_encountered info
     = take 10 (map (truncate 150) (omap captured_error msgs))
  /\ (forall s, s ∈ user_prompts info -> length s <= 200 + length ellipsis)
  /\ (forall s, VStr s ∈ commands_run info -> length s <= 100 + length ellipsis)
  /\ (forall s, s ∈ errors_encountered info ->
        length s <= 150 + length ellipsis)
  /\ (forall s, length s <= 100 -> stored_command (VStr s) = VStr s)
  /\ (forall limit s, length s <= limit -> truncate limit s = s).
Proof.
  intros H. apply extract_spec in H as (modified & read & _ & _ & Hp & _ & _
    & _ & _ & Hc & He & _).
  rewrite concat_prompt_of in Hp. rewrite concat_command_of in Hc.
  rewrite concat_error_of in He.
  split; [done|]. split; [done|]. split; [done|].
  split; [|split; [|split; [|split]]].
  - intros s. rewrite Hp. intros (c & -> & _)%list_elem_of_fmap.
    apply truncate_length.
  - intros s. rewrite Hc. intros Hs%elem_of_take_inv.
    apply list_elem_of_fmap in Hs as (c & Hs & _).
    destruct c; try discriminate. injection Hs as ->. apply truncate_length.
  - intros s. rewrite He. intros Hs%elem_of_take_inv.
    apply list_elem_of_fmap in Hs as (c & -> & _). apply truncate_length.
  - intros s Hs. cbn [stored_command]. by rewrite truncate_verbatim.
  - apply truncate_verbatim.
Qed.

(** ** Tools in first-seen order *)

Lemma py_in_app x l1 l2 : py_in x (l1 ++ l2) = py_in x l1 || py_in x l2.
Proof. unfold py_in. apply existsb_app. Qed.

Lemma py_in_singleton x y : py_in y [x] = py_same x y.
Proof. unfold py_in. cbn [existsb]. apply orb_false_r. Qed.

Lemma first_seen_fuel_enough n : forall m l,
  length l <= n -> length l <= m ->
  first_seen_fuel n l = first_seen_fuel m l.
Proof.
  induction n as [|n IH]; intros m l Hn Hm.
  - destruct l; [|cbn in Hn; lia]. by destruct m.
  - destruct l as [|x r]; [by destruct m|].
    destruct m as [|m]; [cbn in Hm; lia|].
    cbn [first_seen_fuel]. f_equal. cbn [length] in Hn, Hm.
    pose proof (length_filter (fun y => negb (py_same x y)) r).
    apply IH; lia.
Qed.

Lemma first_seen_cons x r :
  first_seen (x :: r)
  = x :: first_seen (filter (fun y => negb (py_same x y)) r).
Proof.
  unfold first_seen. cbn [length first_seen_fuel]. f_equal.
  pose proof (length_filter (fun y => negb (py_same x y)) r).
  apply first_seen_fuel_enough; lia.
Qed.

Lemma fold_add_unique_first_seen l : forall acc,
  fold_left add_unique l acc
  = acc ++ first_seen (filter (fun y => negb (py_in y acc)) l).
Proof.
  induction l as [|x r IH]; intros acc; cbn [fold_left].
  - by rewrite app_nil_r.
  - rewrite IH. unfold add_unique. rewrite filter_cons.
    destruct (py_in x acc) eqn:Hx.
    + rewrite decide_False; [done|]. cbn. tauto.
    + rewrite decide_True by (cbn; tauto). rewrite first_seen_cons.
      rewrite <- app_assoc. cbn [app]. do 3 f_equal.
      rewrite list_filter_filter. apply list_filter_iff. intros y.
      rewrite py_in_app, py_in_singleton.
      destruct (py_in y acc), (py_same x y); cbn; tauto.
Qed.

Lemma py_in_false_iff x l :
  py_in x l = false <-> forall item, item ∈ l -> py_same item x = false.
Proof.
  unfold py_in. induction l as [|a l IH]; cbn [existsb].
  - split; [|done]. intros _ item Hin. by apply elem_of_nil in Hin.
  - rewrite orb_false_iff, IH. split.
    + intros [Ha Hl] item [->|Hin]%elem_of_cons; auto.
    + intros H. split; [apply H; left|intros item Hin; apply H; by right].
Qed.

Lemma add_unique_distinct l x :
  pairwise_distinct l -> pairwise_distinct (add_unique l x).
Proof.
  intros Hl. unfold add_unique. destruct (py_in x l) eqn:Hx; [done|].
  intros i j a b Hij Hi Hj.
  destruct (decide (j < length l)) as [Hlt|Hge].
  - rewrite lookup_app_l in Hi by lia. rewrite lookup_app_l in Hj by lia.
    exact (Hl i j a b Hij Hi Hj).
  - rewrite lookup_app_r in Hj by lia.
    destruct (j - length l) as [|k] eqn:Hk; [|by destruct k].
    cbn in Hj. injection Hj as <-.
    assert (i < length l) as Hi' by lia.
    rewrite lookup_app_l in Hi by lia.
    eapply py_in_false_iff; [exact Hx|]. by eapply list_elem_of_lookup_2.
Qed.

Lemma fold_add_unique_distinct l : forall acc,
  pairwise_distinct acc -> pairwise_distinct (fold_left add_unique l acc).
Proof.
  induction l as [|x r IH]; intros acc Hacc; cbn [fold_left]; [done|].
  apply IH. by apply add_unique_distinct.
Qed.

Lemma first_seen_fuel_sublist n : forall l, first_seen_fuel n l `sublist_of` l.
Proof.
  induction n as [|n IH]; intros l; [apply sublist_nil_l|].
  destruct l as [|x r]; [done|]. cbn [first_seen_fuel].
  apply sublist_skip. etrans; [apply IH|]. apply sublist_filter.
Qed.

(** Every name of [l] is in [fold_left add_unique l acc], or is found there
    by the membership test. *)
Lemma fold_add_unique_covers l : forall acc x,
  x ∈ l \/ x ∈ acc \/ py_in x acc = true ->
  x ∈ fold_left add_unique l acc \/ py_in x (fold_left add_unique l acc) = true.
Proof.
  induction l as [|a r IH]; intros acc x H; cbn [fold_left].
  - destruct H as [H|H]; [by apply elem_of_nil in H|done].
  - apply IH. unfold add_unique.
    destruct H as [[->|H]%elem_of_cons|[H|H]]; [|by left|..].
    + destruct (py_in a acc) eqn:Ha; [by right; right|].
      right; left. apply elem_of_app. right. by apply list_elem_of_singleton.
    + right; left. destruct (py_in a acc); [done|]. apply elem_of_app. by left.
    + right; right. destruct (py_in a acc); [done|].
      rewrite py_in_app, H. done.
Qed.


Lemma value_ind' (P : value -> Prop) :
  P VNone -> (forall b, P (VBool b)) -> (forall z, P (VInt z)) ->
  (forall f, P (VFloat f)) -> (forall s, P (VStr s)) ->
  (forall l, Forall P l -> P (VList l)) ->
  (forall d, Forall (fun kv => P (snd kv)) d -> P (VDict d)) ->
  forall v, P v.
Proof.
  intros HN HB HI HF HS HL HD.
  fix IH 1. intros [|b|z|f|s|l|d];
    [apply HN|apply HB|apply HI|apply HF|apply HS|apply HL|apply HD].
  - induction l as [|x l IHl]; constructor; [apply IH|apply IHl].
  - induction d as [|[k x] d IHd]; constructor; [apply IH|apply IHd].
Qed.

Lemma wf_value_list l : wf_value (VList l) <-> Forall wf_value l.
Proof.
  cbn [wf_value]. induction l as [|x l IH].
  - split; [constructor|done].
  - rewrite Forall_cons, <- IH. reflexivity.
Qed.

Lemma wf_value_dict d :
  wf_value (VDict d)
  <-> NoDup (map fst d) /\ Forall (fun kv => wf_value (snd kv)) d.
Proof.
  cbn [wf_value]. apply and_iff_compat_l.
  induction d as [|[k x] d IH].
  - split; [constructor|done].
  - rewrite Forall_cons, <- IH. reflexivity.
Qed.

Lemma str_eqb_refl s : str_eqb s s = true.
Proof. unfold str_eqb. by apply bool_decide_eq_true. Qed.

Lemma str_eqb_eq s t : str_eqb s t = true <-> s = t.
Proof. unfold str_eqb. apply bool_decide_eq_true. Qed.

Lemma dict_lookup_elem k v d :
  NoDup (map fst d) -> (k, v) ∈ d -> dict_lookup k d = Some v.
Proof.
  induction d as [|[k' v'] d IH]; intros Hnd Hin.
  - by apply elem_of_nil in Hin.
  - cbn [map fst] in Hnd. apply NoDup_cons in Hnd as [Hk Hnd].
    cbn [dict_lookup]. apply elem_of_cons in Hin as [[= -> ->]|Hin].
    + by rewrite str_eqb_refl.
    + destruct (str_eqb k' k) eqn:E; [|by apply IH].
      apply str_eqb_eq in E as ->. exfalso. apply Hk.
      apply list_elem_of_fmap. by exists (k, v).
Qed.

Lemma float_same_refl f : float_same f f = true.
Proof.
  destruct f as [s|s| |s m e]; cbn; try done; unfold SFeqb, SFcompare.
  - by destruct s.
  - destruct s; rewrite Z.compare_refl, Pos.compare_cont_refl; done.
Qed.

Lemma py_same_refl v : wf_value v -> py_same v v = true.
Proof.
  induction v as [|b|z|f|s|l IH|d IH] using value_ind'; intros Hwf.
  - done.
  - cbn. apply Z.eqb_refl.
  - cbn. apply Z.eqb_refl.
  - cbn. apply float_same_refl.
  - cbn. apply str_eqb_refl.
  - apply wf_value_list in Hwf. cbn [py_same].
    induction l as [|x l IHl]; [done|].
    apply Forall_cons in IH as [Hx IH]. apply Forall_cons in Hwf as [Hwx Hwf].
    rewrite Hx by done. cbn [andb]. by apply IHl.
  - apply wf_value_dict in Hwf as [Hnd Hwf]. cbn [py_same].
    rewrite Nat.eqb_refl. cbn [andb].
    assert (forall k v, (k, v) ∈ d -> dict_lookup k d = Some v
                                     /\ py_same v v = true) as Hall.
    { intros k v Hin. split; [by apply dict_lookup_elem|].
      rewrite Forall_forall in IH. rewrite Forall_forall in Hwf.
      apply (IH (k, v)); [done|]. by apply (Hwf (k, v)). }
    clear IH Hwf Hnd. revert Hall. generalize d at 1 4.
    induction d0 as [|[k v] d0 IHd]; intros Hall; [done|].
    destruct (Hall k v) as [-> ->]; [left|]. cbn [andb].
    apply IHd. intros k' v' Hin. apply Hall. by right.
Qed.

Lemma py_same_refl_hashable v : hashable v = true -> py_same v v = true.
Proof. intros H. apply py_same_refl. by destruct v. Qed.

(** [get] on a well-formed dict gives a well-formed value. *)
Lemma wf_value_get d k default :
  wf_value (VDict d) -> wf_value default -> wf_value (get d k default).
Proof.
  intros [_ Hwf]%wf_value_dict Hd. unfold get.
  induction d as [|[k' v] d IH]; cbn [dict_lookup]; [done|].
  apply Forall_cons in Hwf as [Hv Hwf].
  destruct (str_eqb k' (lit k)); [done|]. by apply IH.
Qed.

Lemma pairwise_distinct_NoDup l :
  Forall wf_value l -> pairwise_distinct l -> NoDup l.
Proof.
  intros Hwf Hd. apply NoDup_alt. intros i j x Hi Hj.
  destruct (Nat.lt_trichotomy i j) as [Hlt|[->|Hgt]]; [|done|].
  - pose proof (Hd i j x x Hlt Hi Hj) as Hne.
    rewrite py_same_refl in Hne; [done|].
    rewrite Forall_forall in Hwf. apply Hwf. by eapply list_elem_of_lookup_2.
  - pose proof (Hd j i x x Hgt Hj Hi) as Hne.
    rewrite py_same_refl in Hne; [done|].
    rewrite Forall_forall in Hwf. apply Hwf. by eapply list_elem_of_lookup_2.
Qed.


Lemma filter_all {A} (P : A -> Prop) `{forall x, Decision (P x)} (l : list A) :
  (forall x, P x) -> filter P l = l.
Proof.
  intros HP. induction l as [|x l IH]; [done|].
  rewrite filter_cons, decide_True by done. by rewrite IH.
Qed.

Lemma fold_add_unique_nil l : fold_left add_unique l [] = first_seen l.
Proof.
  rewrite fold_add_unique_first_seen. cbn [app]. f_equal.
  apply filter_all. intros x. done.
Qed.

Lemma wf_tool_identifier m x :
  wf_value m -> tool_identifier m = Some x -> wf_value x.
Proof.
  destruct m; try discriminate. intros Hwf. cbn [tool_identifier].
  destruct (_ && _); [|discriminate]. intros [= <-].
  apply wf_value_get; [done|]. by apply wf_value_get.
Qed.

(** C7. [tools_used] holds the tool identifiers of the input in first-seen
    order, without duplicates: an identifier that the membership test finds
    already recorded is not appended again. *)
Theorem tools_used_first_seen msgs info :
  extract_session_info msgs = Ok info ->
  tools_used info = first_seen (omap tool_identifier msgs)
  /\ pairwise_distinct (tools_used info)
  /\ tools_used info `sublist_of` omap tool_identifier msgs
  /\ (forall x, x ∈ omap tool_identifier msgs ->
        x ∈ tools_used info \/ py_in x (tools_used info) = true)
  /\ (Forall wf_value msgs -> NoDup (tools_used info)).
Proof.
  intros H. apply extract_spec in H as (mo & re & _ & _ & _ & Ht & _).
  assert (tools_used info `sublist_of` omap tool_identifier msgs) as Hsub.
  { rewrite Ht, fold_add_unique_nil. apply first_seen_fuel_sublist. }
  assert (pairwise_distinct (tools_used info)) as Hd.
  { rewrite Ht. apply fold_add_unique_distinct. intros i j x y _ Hi.
    by rewrite lookup_nil in Hi. }
  split; [by rewrite Ht, fold_add_unique_nil|].
  split; [done|]. split; [done|]. split.
  - intros x Hx. rewrite Ht. apply fold_add_unique_covers. by left.
  - intros Hwf. apply pairwise_distinct_NoDup; [|done].
    rewrite Forall_forall. intros x Hx.
    eapply elem_of_sublist in Hx; [|exact Hsub].
    apply list_elem_of_omap in Hx as (m & Hm & Hx).
    rewrite Forall_forall in Hwf. eapply wf_tool_identifier; eauto.
Qed.

(** ** Extraction on plain object records *)

Lemma get_absent d k default : has_key k d = false -> get d k default = default.
Proof. unfold has_key, get. by destruct (dict_lookup (lit k) d). Qed.

Lemma tool_rule_plain d info :
  plain_record (VDict d) = true -> exists info', tool_rule d info = Ok info'.
Proof.
  cbn [plain_record]. unfold tool_rule, command_rule.
  destruct (_ || _); [|eauto]. destruct (truthy _); [|eauto].
  destruct (get d "input" (VDict [])) as [| | | | | |ti]; eauto.
  intros [_ Hc]%andb_prop. destruct (py_eq _ (VStr (lit "Bash"))); [|eauto].
  destruct (truthy (get ti "command" (VStr []))) eqn:Ht; [|eauto].
  destruct (get ti "command" (VStr [])); cbn [plain_command] in Hc;
    rewrite ?Ht in Hc; try discriminate.
  cbn [py_len bind slice_add_ellipsis]. destruct (100 <? length s); eauto.
Qed.

Lemma step_plain info m :
  plain_record m = true -> step info m = Ok (advance info m).
Proof.
  intros Hp. destruct m as [| | | | | |d]; try discriminate.
  destruct (tool_rule_plain d (prompt_rule d info) Hp) as [info2 Ht].
  assert (step info (VDict d) = Ok (error_rule d info2)) as Hs.
  { cbn [step]. by rewrite Ht. }
  rewrite Hs. f_equal. by apply step_spec.
Qed.

Lemma accumulate_plain msgs : forall info,
  Forall (fun m => plain_record m = true) msgs ->
  accumulate msgs info = Ok (fold_left advance msgs info).
Proof.
  induction msgs as [|m msgs IH]; intros info Hp; [done|].
  apply Forall_cons in Hp as [Hm Hp]. cbn [accumulate fold_left].
  rewrite step_plain by done. cbn [bind]. by apply IH.
Qed.

Lemma mutation_path_hashable m p :
  plain_record m = true -> mutation_path m = Some p -> hashable p = true.
Proof.
  destruct m as [| | | | | |d]; try discriminate.
  unfold mutation_path, tool_input_of. cbn [plain_record].
  destruct (tool_identifier (VDict d)); [|discriminate].
  destruct (get d "input" (VDict [])); try discriminate.
  intros [Hh _]%andb_prop. destruct (_ && _); [|discriminate].
  by intros [= <-].
Qed.

Lemma read_path_hashable m p :
  plain_record m = true -> read_path m = Some p -> hashable p = true.
Proof.
  destruct m as [| | | | | |d]; try discriminate.
  unfold read_path, tool_input_of. cbn [plain_record].
  destruct (tool_identifier (VDict d)); [|discriminate].
  destruct (get d "input" (VDict [])); try discriminate.
  intros [Hh _]%andb_prop. destruct (_ && _); [|discriminate].
  by intros [= <-].
Qed.

Lemma pairwise_distinct_nil : pairwise_distinct [].
Proof. intros i j x y _ Hi. by rewrite lookup_nil in Hi. Qed.

Lemma first_seen_distinct l : pairwise_distinct (first_seen l).
Proof.
  rewrite <- fold_add_unique_nil. apply fold_add_unique_distinct.
  apply pairwise_distinct_nil.
Qed.

(** A list without equal entries is left as it is by the insertion loop. *)
Lemma fold_add_unique_id l : forall acc,
  pairwise_distinct (acc ++ l) -> fold_left add_unique l acc = acc ++ l.
Proof.
  induction l as [|x r IH]; intros acc Hd; cbn [fold_left].
  - by rewrite app_nil_r.
  - assert (py_in x acc = false) as Hx.
    { apply py_in_false_iff. intros item (i & Hi)%list_elem_of_lookup_1.
      apply (Hd i (length acc) item x).
      - by eapply lookup_lt_Some.
      - rewrite lookup_app_l; [done|]. by eapply lookup_lt_Some.
      - by rewrite list_lookup_middle. }
    unfold add_unique. rewrite Hx. rewrite IH; rewrite <- app_assoc; done.
Qed.

Lemma list_set_first_seen l :
  Forall (fun x => hashable x = true) l ->
  list_set (fold_left add_unique l []) = Ok (set_order (first_seen l)).
Proof.
  intros Hl. unfold list_set. rewrite fold_add_unique_nil.
  assert (forallb hashable (first_seen l) = true) as ->.
  { apply forallb_forall. intros x Hx%list_elem_of_In.
    rewrite Forall_forall in Hl. apply Hl.
    eapply elem_of_sublist; [exact Hx|apply first_seen_fuel_sublist]. }
  rewrite (fold_add_unique_id _ []); [done|]. apply first_seen_distinct.
Qed.

Lemma plain_paths_hashable (f : value -> option value) msgs :
  (forall m p, plain_record m = true -> f m = Some p -> hashable p = true) ->
  Forall (fun m => plain_record m = true) msgs ->
  Forall (fun x => hashable x = true) (omap f msgs).
Proof.
  intros Hf Hp. rewrite Forall_forall. intros p (m & Hm & Hfm)%list_elem_of_omap.
  rewrite Forall_forall in Hp. eauto.
Qed.

Lemma extract_plain msgs :
  Forall (fun m => plain_record m = true) msgs ->
  exists info, extract_session_info msgs = Ok info.
Proof.
  intros Hp. unfold extract_session_info.
  rewrite accumulate_plain by done. cbn [bind]. unfold post_pass.
  rewrite fold_files_modified, fold_files_read. cbn [initial_info files_modified files_read].
  rewrite !list_set_first_seen;
    eauto using plain_paths_hashable, mutation_path_hashable, read_path_hashable.
Qed.

(** A record that is not an object ends the extraction with an exception. *)
Lemma accumulate_raises_on_non_object msgs : forall info,
  Exists (fun m => forall d, m <> VDict d) msgs ->
  exists e, accumulate msgs info = Raise e.
Proof.
  induction msgs as [|m msgs IH]; intros info Hex.
  - by apply Exists_nil in Hex.
  - cbn [accumulate]. destruct (step info m) as [info'|e] eqn:Hs; [|eauto].
    cbn [bind]. apply IH. apply Exists_cons in Hex as [Hm|Hex]; [|done].
    apply step_is_object in Hs as [d ->]. by destruct (Hm d).
Qed.

Lemma extract_raises_on_non_objects msgs :
  Exists (fun m => forall d, m <> VDict d) msgs ->
  exists e, extract_session_info msgs = Raise e.
Proof.
  intros Hex. unfold extract_session_info.
  destruct (accumulate_raises_on_non_object msgs
              (initial_info (length msgs)) Hex) as [e ->].
  eauto.
Qed.

Lemma no_tool_identifier d :
  tool_identifier (VDict d) = None ->
  mutation_path (VDict d) = None /\ read_path (VDict d) = None
  /\ command_of (VDict d) = [].
Proof.
  intros H. unfold mutation_path, read_path, command_of, captured_command,
    tool_input_of. by rewrite H.
Qed.

Lemma contains_error_empty (Hlow : lower_ascii_law) :
  contains (lit "error") (py_lower []) = false
  /\ contains (lit "failed") (py_lower []) = false.
Proof. rewrite (Hlow []) by constructor. done. Qed.

(** C1, as the code has it. On records that are JSON objects whose [input]
    object, if any, carries a hashable path and a string (or no) command,
    extraction completes without raising; each record is processed by three
    rules that each change only their own lists ([advance]); and a record
    that lacks the fields a rule reads is skipped by that rule. *)
Theorem extract_total_on_plain_objects (Hlow : lower_ascii_law) msgs :
  Forall (fun m => plain_record m = true) msgs ->
  (exists info, extract_session_info msgs = Ok info)
  /\ (forall info m, m ∈ msgs -> step info m = Ok (advance info m))
  /\ (forall d,
        (has_key "content" d = false -> has_key "message" d = false ->
         prompt_of (VDict d) = [])
        /\ (has_key "name" d = false -> has_key "tool" d = false ->
            tool_identifier (VDict d) = None
            /\ mutation_path (VDict d) = None /\ read_path (VDict d) = None
            /\ command_of (VDict d) = [])
        /\ (has_key "input" d = false ->
            mutation_path (VDict d) = None /\ read_path (VDict d) = None
            /\ command_of (VDict d) = [])
        /\ (has_key "content" d = false -> has_key "output" d = false ->
            error_of (VDict d) = [])).
Proof.
  intros Hp. split; [by apply extract_plain|]. split.
  { intros info m Hm. apply step_plain. rewrite Forall_forall in Hp. auto. }
  intros d. split; [|split; [|split]].
  - intros Hc Hm. unfold prompt_of, captured_prompt.
    rewrite (get_absent d "content"), (get_absent d "message") by done.
    by destruct (_ || _).
  - intros Hn Ht.
    assert (tool_identifier (VDict d) = None) as Hid.
    { cbn [tool_identifier].
      rewrite (get_absent d "name"), (get_absent d "tool") by done.
      cbn [truthy length Nat.eqb negb]. by rewrite andb_false_r. }
    split; [done|]. by apply no_tool_identifier.
  - intros Hi. unfold mutation_path, read_path, command_of, captured_command,
      tool_input_of.
    rewrite (get_absent d "input") by done.
    destruct (tool_identifier (VDict d)); [|done].
    cbn. rewrite !andb_false_r. done.
  - intros Hc Ho. unfold error_of, captured_error.
    rewrite (get_absent d "content"), (get_absent d "output") by done.
    cbn [py_str]. destruct (contains_error_empty Hlow) as [-> ->].
    by rewrite andb_false_r.
Qed.
(** ** The transcript reader *)

Lemma read_loop_spec events : forall messages,
  read_loop events messages
  = messages ++ decoded_lines (before_abort events).
Proof.
  unfold decoded_lines.
  induction events as [|ev events IH]; intros messages;
    cbn [read_loop before_abort].
  - by rewrite app_nil_r.
  - destruct ev as [line|e]; cbn [aborts decoded_line];
      [|by rewrite app_nil_r].
    destruct (negb (length (strip line) =? 0)) eqn:Hblank.
    + destruct (json_loads (strip line)) as [v|e] eqn:Hj.
      * rewrite IH. simpl. rewrite Hblank, Hj. by rewrite <- app_assoc.
      * destruct e; try by rewrite app_nil_r.
        rewrite IH. simpl. by rewrite Hblank, Hj.
    + rewrite IH. simpl. by rewrite Hblank.
Qed.

Lemma before_abort_all events :
  Forall (fun ev => aborts ev = false) events -> before_abort events = events.
Proof.
  induction 1 as [|ev events Hev _ IH]; [done|].
  cbn [before_abort]. by rewrite Hev, IH.
Qed.

(** C4, as the code has it. The reader returns, in line order, one record
    per non-blank line that decodes, over the lines that come before the
    first failing read or the first line whose decoding raises something
    other than [JSONDecodeError]; a line that raises [JSONDecodeError] is
    skipped and reading goes on; a file that cannot be opened gives the
    empty sequence. *)
Theorem parse_transcript_until_abort :
  parse_transcript None = []
  /\ (forall events,
        parse_transcript (Some events) = decoded_lines (before_abort events))
  /\ (forall events,
        Forall (fun ev => aborts ev = false) events ->
        parse_transcript (Some events) = decoded_lines events).
Proof.
  split; [done|]. split.
  - intros events. cbn [parse_transcript]. by rewrite read_loop_spec.
  - intros events H. cbn [parse_transcript].
    by rewrite read_loop_spec, before_abort_all.
Qed.
(** ** The build-failure record *)

Lemma build_failed_captured (Hlow : lower_ascii_law) :
  captured_error Sample.build_failed = Some Sample.build_failed_content.
Proof.
  unfold captured_error, Sample.build_failed.
  replace (py_eq _ (VStr (lit "tool_result"))) with true by reflexivity.
  cbn [orb andb]. replace (py_str _) with Sample.build_failed_content
    by reflexivity.
  rewrite (Hlow Sample.build_failed_content)
    by (unfold is_ascii; repeat constructor).
  reflexivity.
Qed.

Lemma build_failed_advance (Hlow : lower_ascii_law) info :
  advance info Sample.build_failed
  = set_errors_encountered info
      (errors_encountered info ++ [Sample.build_failed_content]).
Proof.
  unfold advance, error_of. rewrite (build_failed_captured Hlow).
  rewrite truncate_verbatim by (vm_compute; lia).
  replace (prompt_of Sample.build_failed) with (@nil str) by reflexivity.
  replace (command_of Sample.build_failed) with (@nil value) by reflexivity.
  replace (tool_identifier Sample.build_failed) with (@None value)
    by reflexivity.
  replace (mutation_path Sample.build_failed) with (@None value)
    by reflexivity.
  replace (read_path Sample.build_failed) with (@None value) by reflexivity.
  cbn [add_opt]. rewrite !app_nil_r. by destruct info.
Qed.

Lemma omap_cons_Some {A B} (f : A -> option B) x y l :
  f x = Some y -> omap f (x :: l) = y :: omap f l.
Proof. intros H. simpl. by rewrite H. Qed.

Lemma elem_of_take_app_middle {A} (x : A) pre post n :
  length pre < n -> x ∈ take n (pre ++ x :: post).
Proof.
  intros H. apply list_elem_of_lookup. exists (length pre).
  rewrite lookup_take_lt by done. by rewrite list_lookup_middle.
Qed.

(** C9, as the code has it. Processing the record
    [{"type":"tool_result","content":"Build failed: missing semicolon"}]
    appends its content text, unchanged, to [errors_encountered] and changes
    nothing else; the text is in the returned list when extraction returns
    and fewer than 10 excerpts were captured from the records before it. *)
Theorem build_failed_recorded (Hlow : lower_ascii_law) :
  (forall info,
     step info Sample.build_failed
     = Ok (set_errors_encountered info
             (errors_encountered info ++ [Sample.build_failed_content])))
  /\ (forall pre post info,
        extract_session_info (pre ++ Sample.build_failed :: post) = Ok info ->
        length (omap captured_error pre) < 10 ->
        Sample.build_failed_content ∈ errors_encountered info).
Proof.
  split.
  - intros info. rewrite step_plain by reflexivity.
    by rewrite build_failed_advance.
  - intros pre post info H Hlen.
    apply extract_spec in H as (modified & read & _ & _ & _ & _ & _ & _ & _
      & _ & He & _).
    rewrite He, concat_error_of, omap_app, map_app.
    rewrite (omap_cons_Some _ _ _ _ (build_failed_captured Hlow)).
    cbn [map]. rewrite truncate_verbatim by (vm_compute; lia).
    apply elem_of_take_app_middle. by rewrite length_map.
Qed.
(** ** Three prompts and two edits of one file *)

Lemma list_set_twice (Hset : set_order_law) p modified :
  list_set (fold_left add_unique [p; p] []) = Ok modified ->
  length modified = 1.
Proof.
  cbn [fold_left]. unfold list_set.
  replace (add_unique [] p) with [p] by reflexivity.
  unfold add_unique at 1 3. rewrite py_in_singleton.
  destruct (py_same p p) eqn:Hp.
  - destruct (forallb hashable [p]); [|discriminate]. intros [= <-].
    cbn [fold_left]. replace (add_unique [] p) with [p] by reflexivity.
    by rewrite (Permutation_length (Hset [p])).
  - cbn [app forallb]. destruct (hashable p) eqn:Hh; [|discriminate].
    by rewrite py_same_refl_hashable in Hp.
Qed.

(** C5, as the code has it. When exactly three records are prompts (type
    [human] or role [user], with string content that is not blank) and
    exactly two records are mutation-tool invocations, both carrying the
    same path, the returned SessionInfo has three prompts and one modified
    file; and extraction does return when the records are plain objects. *)
Theorem three_prompts_two_edits (Hset : set_order_law) msgs p :
  length (omap captured_prompt msgs) = 3 ->
  omap mutation_path msgs = [p; p] ->
  (forall info,
     extract_session_info msgs = Ok info ->
     length (files_modified info) = 1 /\ length (user_prompts info) = 3)
  /\ (Forall (fun m => plain_record m = true) msgs ->
      exists info, extract_session_info msgs = Ok info).
Proof.
  intros Hprompts Hpaths. split; [|apply extract_plain].
  intros info H.
  apply extract_spec in H as (modified & read & Hm & _ & Hp & _ & Hf & _).
  rewrite Hpaths in Hm. apply (list_set_twice Hset) in Hm.
  rewrite Hf, Hp, concat_prompt_of, length_map, length_take. lia.
Qed.
(** ** The renderer *)

Lemma split_lines_line a : forall current rest,
  newline ∉ a ->
  split_lines current (a ++ newline :: rest)
  = (rev current ++ a) :: split_lines [] rest.
Proof.
  induction a as [|c a IH]; intros current rest Ha; cbn [app split_lines].
  - rewrite N.eqb_refl. by rewrite app_nil_r.
  - apply not_elem_of_cons in Ha as [Hc Ha].
    destruct (N.eqb_spec c newline) as [->|_]; [done|].
    rewrite IH by done. cbn [rev]. by rewrite <- app_assoc.
Qed.

Lemma join_cons_cons sep a b rest :
  join sep (a :: b :: rest) = a ++ sep ++ join sep (b :: rest).
Proof. reflexivity. Qed.

Lemma digit_not_newline n : digit n <> newline.
Proof. unfold digit, newline. lia. Qed.

Lemma decimal_fuel_no_newline fuel : forall n acc,
  newline ∉ acc -> newline ∉ decimal_fuel fuel n acc.
Proof.
  induction fuel as [|fuel IH]; intros n acc Hacc; cbn [decimal_fuel]; [done|].
  assert (newline ∉ digit (n mod 10) :: acc) as H.
  { apply not_elem_of_cons. split; [|done].
    intros E. by apply (digit_not_newline (n mod 10)). }
  destruct (n <? 10); [done|]. by apply IH.
Qed.

Lemma decimal_no_newline n : newline ∉ decimal n.
Proof. apply decimal_fuel_no_newline, not_elem_of_nil. Qed.

Lemma pad_no_newline width n : newline ∉ pad width n.
Proof.
  unfold pad. apply not_elem_of_app. split; [|apply decimal_no_newline].
  intros E%list_elem_of_In%repeat_spec. by apply (digit_not_newline 0).
Qed.

Lemma lit_no_newline s :
  forallb (fun c => negb (c =? newline)%N) (lit s) = true -> newline ∉ lit s.
Proof.
  intros H Hin. rewrite forallb_forall in H.
  apply list_elem_of_In, H in Hin. by rewrite N.eqb_refl in Hin.
Qed.

Lemma strftime_no_newline now : newline ∉ strftime now.
Proof.
  unfold strftime.
  rewrite !not_elem_of_app.
  repeat split;
    first [apply decimal_no_newline | apply pad_no_newline
          | by apply lit_no_newline].
Qed.

Lemma banner_no_newline : newline ∉ banner.
Proof. unfold banner. by intros E%list_elem_of_In%repeat_spec. Qed.

(** The first four lines of the text are the four items of the head. *)
Lemma summary_lines now rest :
  split_lines [] (join [newline] (summary_head now ++ [] :: rest))
  = summary_head now ++ split_lines [] (join [newline] ([] :: rest)).
Proof.
  unfold summary_head. cbn [app]. rewrite !join_cons_cons. cbn [app].
  rewrite (split_lines_line banner) by apply banner_no_newline.
  rewrite (split_lines_line (lit "SESSION SUMMARY"))
    by (by apply lit_no_newline).
  rewrite (split_lines_line banner) by apply banner_no_newline.
  rewrite (split_lines_line (lit "Generated: " ++ strftime now)).
  - reflexivity.
  - apply not_elem_of_app. split; [by apply lit_no_newline|].
    apply strftime_no_newline.
Qed.

Lemma summary_body_head info body :
  summary_body info = Ok body -> exists rest, body = [] :: rest.
Proof.
  unfold summary_body. destruct (tools_section info); [|discriminate].
  cbn [bind app]. intros [= <-]. eauto.
Qed.

(** C6. Rendering the same SessionInfo at two times gives the same text
    once the fourth line, the one that carries the timestamp, is left out
    (and the same exception when the rendering raises); that fourth line is
    the generation-timestamp line. *)
Theorem summary_deterministic info now1 now2 :
  without_timestamp (generate_summary info now1)
  = without_timestamp (generate_summary info now2)
  /\ match generate_summary info now1 with
     | Ok text =>
         split_lines [] text !! 3 = Some (lit "Generated: " ++ strftime now1)
     | Raise _ => True
     end.
Proof.
  unfold generate_summary.
  destruct (summary_body info) as [body|e] eqn:Hb; cbn [bind]; [|done].
  apply summary_body_head in Hb as [rest ->].
  unfold without_timestamp. cbn [bind]. rewrite !summary_lines. done.
Qed.
(** ** The driver on a missing transcript *)

Lemma path_join_inj dir a b :
  lit a <> lit b -> path_join dir a <> path_join dir b.
Proof.
  unfold path_join. intros Hne E. apply app_inv_head in E.
  apply app_inv_head in E. done.
Qed.


Lemma archive_holds_load fs log_path entries :
  archive_holds fs log_path entries ->
  load_archive fs log_path = Ok (VList entries).
Proof.
  unfold load_archive. intros [Hf|f text l Hf Hr Hl|f e Hf Hr He]; rewrite Hf.
  - done.
  - rewrite Hr. cbn [bind]. by rewrite Hl.
  - by rewrite Hr, He.
Qed.

(** C8, as the code has it. With the envelope
    [{"session_id": "s1", "transcript_path": p}] on standard input,
    [--summary] set, no file at [p], and a [stop.json] that is absent,
    cannot be decoded, or holds a JSON array, the process exits with status
    0, [stop.json] becomes the entries it held (none when it was absent or
    undecodable) with the envelope appended, and no other file is written:
    neither [session_summary.txt] nor [session_summary.json]. *)
Theorem stop_with_missing_transcript args stdin now1 now2 fs p log_dir entries :
  summary args = true ->
  json_loads stdin = Ok (VDict (stop_envelope p)) ->
  ensure_session_log_dir (VStr (lit "s1")) = Ok log_dir ->
  archive_holds fs (path_join log_dir "stop.json") entries ->
  fs !! p = None ->
  p <> path_join log_dir "stop.json" ->
  let o := main args stdin now1 now2 fs in
  exit_status o = 0%Z
  /\ files_after o
     = <[path_join log_dir "stop.json" :=
           written (json_dumps (VList (entries ++ [VDict (stop_envelope p)])))]>
         fs
  /\ files_after o !! path_join log_dir "session_summary.txt"
     = fs !! path_join log_dir "session_summary.txt"
  /\ files_after o !! path_join log_dir "session_summary.json"
     = fs !! path_join log_dir "session_summary.json"
  /\ stdout o = [] /\ stderr o = [].
Proof.
  intros Hsum Hin Hdir Harch%archive_holds_load Hmiss Hne o.
  assert (main_body args stdin now1 now2 fs
          = (<[path_join log_dir "stop.json" :=
                 written (json_dumps
                            (VList (entries ++ [VDict (stop_envelope p)])))]> fs,
             [], Ok tt)) as Hbody.
  { unfold main_body. rewrite Hin.
    replace (get (stop_envelope p) "session_id" (VStr (lit "unknown")))
      with (VStr (lit "s1")) by reflexivity.
    replace (get (stop_envelope p) "transcript_path" (VStr []))
      with (VStr p) by reflexivity.
    rewrite Hdir, Harch. unfold process_transcript.
    destruct (truthy (VStr p)); [|done].
    cbn [os_path_exists]. rewrite lookup_insert_ne by done. rewrite Hmiss.
    rewrite bool_decide_eq_false_2; [done|]. by intros [? ?]. }
  subst o. unfold main. rewrite Hbody. cbn [exit_status files_after stdout stderr].
  split; [done|]. split; [done|].
  split; [|split; [|done]]; apply lookup_insert_ne, path_join_inj; done.
Qed.

End Properties.

(** * The properties on the sample runtime *)

Lemma sample_lower_law : @lower_ascii_law Sample.runtime.
Proof. intros s _. reflexivity. Qed.

Lemma sample_set_order_law : @set_order_law Sample.runtime.
Proof. intros l. reflexivity. Qed.

Lemma extract_total_on_plain_objects_witness :
  Forall (fun m => plain_record m = true) Sample.session
  /\ exists info, @extract_session_info Sample.runtime Sample.session = Ok info.
Proof.
  assert (Forall (fun m => plain_record m = true) Sample.session) as H
    by (repeat constructor).
  split; [exact H|].
  exact (proj1 (@extract_total_on_plain_objects Sample.runtime
                  sample_lower_law Sample.session H)).
Defined.

(** The claim C1 fails on a record that is not an object: the line [5] is
    decoded to the integer 5, and extraction raises on it. *)
Lemma extract_raises_on_non_object :
  @parse_transcript Sample.runtime (Some [Line (lit "5" ++ [newline])])
  = [VInt 5]
  /\ @extract_session_info Sample.runtime [VInt 5] = Raise AttributeError.
Proof. split; reflexivity. Qed.

Lemma extract_caps_witness :
  exists info,
    @extract_session_info Sample.runtime Sample.eleven_errors = Ok info
    /\ length (files_modified info) <= 20
    /\ length (files_read info) <= 20
    /\ length (commands_run info) <= 15
    /\ length (errors_encountered info) <= 10.
Proof.
  eexists. split; [vm_compute; reflexivity|].
  apply (@extract_caps Sample.runtime Sample.eleven_errors).
  vm_compute; reflexivity.
Defined.

Lemma files_created_always_empty_witness :
  exists info,
    @extract_session_info Sample.runtime Sample.session = Ok info
    /\ files_created info = [].
Proof.
  eexists. split; [vm_compute; reflexivity|].
  apply (@files_created_always_empty Sample.runtime Sample.session).
  vm_compute; reflexivity.
Defined.
Lemma stored_strings_truncated_witness :
  exists info,
    @extract_session_info Sample.runtime Sample.session = Ok info
    /\ user_prompts info
       = map (truncate 200) (omap captured_prompt Sample.session)
    /\ forall s, s ∈ user_prompts info -> length s <= 200 + length ellipsis.
Proof.
  eexists. split; [vm_compute; reflexivity|].
  pose proof (@stored_strings_truncated Sample.runtime Sample.session _
                ltac:(vm_compute; reflexivity)) as (H1 & _ & _ & H4 & _).
  split; [exact H1|exact H4].
Defined.

Lemma parse_transcript_until_abort_witness :
  Forall (fun ev => @aborts Sample.runtime ev = false) Sample.small_transcript
  /\ @parse_transcript Sample.runtime (Some Sample.small_transcript)
     = @decoded_lines Sample.runtime Sample.small_transcript
  /\ @decoded_lines Sample.runtime Sample.small_transcript
     = [VInt 5; Sample.build_failed; VNone].
Proof.
  assert (Forall (fun ev => @aborts Sample.runtime ev = false)
            Sample.small_transcript) as H by (repeat constructor).
  split; [exact H|]. split; [|reflexivity].
  exact (proj2 (proj2 (@parse_transcript_until_abort Sample.runtime)) _ H).
Defined.

(** The claim C4 fails on a line whose decoding raises something other than
    [JSONDecodeError]: a 5000-digit integer makes [json.loads] raise
    [ValueError], the loop is left, and the record of the next line, which
    does parse, is not returned. *)
Lemma reader_stops_at_huge_integer :
  @parse_transcript Sample.runtime (Some Sample.huge_integer_transcript) = []
  /\ @decoded_lines Sample.runtime Sample.huge_integer_transcript = [VInt 7].
Proof. split; vm_compute; reflexivity. Qed.

Lemma three_prompts_two_edits_witness :
  exists info,
    @extract_session_info Sample.runtime Sample.three_prompt_session = Ok info
    /\ length (files_modified info) = 1 /\ length (user_prompts info) = 3.
Proof.
  eexists. split; [vm_compute; reflexivity|].
  apply (proj1 (@three_prompts_two_edits Sample.runtime sample_set_order_law
                  Sample.three_prompt_session (VStr (lit "/src/parser.py"))
                  ltac:(vm_compute; reflexivity)
                  ltac:(vm_compute; reflexivity))).
  vm_compute; reflexivity.
Defined.

(** The claim C5 fails when a prompt is blank: the three records below are
    prompt records with non-empty string content, the two edits carry the
    same path, and only two prompts are stored. *)
Lemma blank_prompt_is_not_stored :
  length (filter (fun m => prompt_shaped_as_worded m = true)
            Sample.blank_prompt_session) = 3
  /\ omap mutation_path Sample.blank_prompt_session
     = [VStr (lit "/src/parser.py"); VStr (lit "/src/parser.py")]
  /\ exists info,
       @extract_session_info Sample.runtime Sample.blank_prompt_session
       = Ok info
       /\ length (user_prompts info) = 2
       /\ length (files_modified info) = 1.
Proof.
  split; [vm_compute; reflexivity|]. split; [vm_compute; reflexivity|].
  eexists. split; [vm_compute; reflexivity|]. split; reflexivity.
Qed.

Lemma tools_used_first_seen_witness :
  exists info,
    @extract_session_info Sample.runtime Sample.session = Ok info
    /\ tools_used info
       = [VStr (lit "Write"); VStr (lit "Edit"); VStr (lit "Read");
          VStr (lit "Bash")]
    /\ tools_used info = first_seen (omap tool_identifier Sample.session)
    /\ pairwise_distinct (tools_used info).
Proof.
  eexists. split; [vm_compute; reflexivity|]. split; [reflexivity|].
  pose proof (@tools_used_first_seen Sample.runtime Sample.session _
                ltac:(vm_compute; reflexivity)) as (H1 & H2 & _).
  split; [exact H1|exact H2].
Defined.

Lemma build_failed_recorded_witness :
  @step Sample.runtime (initial_info 1) Sample.build_failed
  = Ok (set_errors_encountered (initial_info 1) [Sample.build_failed_content]).
Proof.
  exact (proj1 (@build_failed_recorded Sample.runtime sample_lower_law)
           (initial_info 1)).
Defined.

(** The claim C9 fails once ten excerpts have been captured: the record is
    in the input, extraction returns, and the returned list of ten entries
    does not hold its text. It also fails behind a record that raises: the
    loop never reaches the record. *)
Lemma build_failed_not_recorded :
  (Sample.build_failed ∈ Sample.eleven_errors
   /\ exists info,
        @extract_session_info Sample.runtime Sample.eleven_errors = Ok info
        /\ errors_encountered info = repeat (lit "error: disk full") 10
        /\ Sample.build_failed_content ∉ errors_encountered info)
  /\ @extract_session_info Sample.runtime [VInt 5; Sample.build_failed]
     = Raise AttributeError.
Proof.
  split; [split|reflexivity].
  - apply elem_of_app. right. apply list_elem_of_singleton. reflexivity.
  - eexists. split; [vm_compute; reflexivity|]. split; [reflexivity|].
    intros H%list_elem_of_In. cbn in H. intuition discriminate.
Qed.

Lemma stop_with_missing_transcript_witness :
  let o := @main Replay.runtime Replay.summary_flag Replay.envelope_text
             Sample.noon Sample.noon Replay.archived_files in
  exit_status o = 0%Z
  /\ files_after o
     = <[path_join (lit "logs/s1") "stop.json" :=
           written (@json_dumps Replay.runtime
                      (VList ([VDict Replay.envelope]
                              ++ [VDict (stop_envelope
                                           (lit Replay.transcript))])))]>
         Replay.archived_files
  /\ files_after o !! path_join (lit "logs/s1") "session_summary.txt"
     = Replay.archived_files !! path_join (lit "logs/s1") "session_summary.txt"
  /\ files_after o !! path_join (lit "logs/s1") "session_summary.json"
     = Replay.archived_files
         !! path_join (lit "logs/s1") "session_summary.json"
  /\ stdout o = [] /\ stderr o = [].
Proof.
  apply (@stop_with_missing_transcript Replay.runtime Replay.summary_flag
           Replay.envelope_text Sample.noon Sample.noon Replay.archived_files
           (lit Replay.transcript) (lit "logs/s1") [VDict Replay.envelope]).
  - reflexivity.
  - reflexivity.
  - reflexivity.
  - apply (@archive_array Replay.runtime Replay.archived_files
             (path_join (lit "logs/s1") "stop.json")
             (written Replay.archive_text) Replay.archive_text
             [VDict Replay.envelope]).
    + reflexivity.
    + vm_compute; reflexivity.
    + reflexivity.
  - reflexivity.
  - discriminate.
Defined.

(** On a [stop.json] that holds the number [5], the same envelope with
    [--summary] and a missing transcript is not archived: the file is left
    as it was and the failed [append] is reported. *)
Lemma stop_with_non_array_archive :
  let o := @main Sample.runtime Replay.summary_flag Sample.envelope_text
             Sample.noon Sample.noon Replay.number_archive in
  @json_loads Sample.runtime Sample.envelope_text
  = Ok (VDict (stop_envelope (lit Sample.missing_path)))
  /\ Replay.number_archive !! lit Sample.missing_path = None
  /\ exit_status o = 0%Z
  /\ files_after o !! path_join (lit "logs/s1") "stop.json"
     = Some [Line (lit "5")]
  /\ files_after o = Replay.number_archive
  /\ stderr o = [AttributeError].
Proof. vm_compute. repeat split; reflexivity. Qed.


(** * Further properties *)

Section Further.
Context `{RT : Runtime}.

(** ** The transcript reader, further *)

Lemma passed_over_decoded ev :
  passed_over ev -> aborts ev = false /\ decoded_line ev = None.
Proof.
  intros (line & -> & [Hb|Hj]); cbn [aborts decoded_line].
  - by rewrite Hb.
  - rewrite Hj. by destruct (negb _).
Qed.

Lemma extract_empty (Hset : set_order_law) :
  extract_session_info [] = Ok (initial_info 0).
Proof.
  unfold extract_session_info, post_pass, list_set. cbn.
  by rewrite (proj1 (Permutation_nil_r _) (Hset [])).
Qed.

(** X1. A transcript whose lines are all blank or malformed gives no record,
    and the SessionInfo of no record has [total_messages = 0] and every list
    empty. *)
Theorem malformed_transcript_gives_empty_info (Hset : set_order_law) events :
  Forall passed_over events ->
  parse_transcript (Some events) = []
  /\ extract_session_info (parse_transcript (Some events))
     = Ok (initial_info 0).
Proof.
  intros H.
  assert (parse_transcript (Some events) = []) as Hp.
  { cbn [parse_transcript]. rewrite read_loop_spec. cbn [app].
    rewrite before_abort_all.
    - unfold decoded_lines. induction H as [|ev events Hev _ IH]; [done|].
      simpl. by rewrite (proj2 (passed_over_decoded ev Hev)).
    - eapply Forall_impl; [exact H|]. intros ev Hev.
      apply (passed_over_decoded ev Hev). }
  split; [done|]. rewrite Hp. by apply extract_empty.
Qed.

Lemma before_abort_sublist events : before_abort events `sublist_of` events.
Proof.
  induction events as [|ev events IH]; [done|]. cbn [before_abort].
  destruct (aborts ev); [apply sublist_nil_l|by apply sublist_skip].
Qed.

Lemma decoded_line_Some ev v :
  decoded_line ev = Some v ->
  exists line, ev = Line line /\ strip line <> []
               /\ json_loads (strip line) = Ok v.
Proof.
  destruct ev as [line|e]; [|discriminate]. cbn [decoded_line].
  destruct (strip line) as [|c s] eqn:Hs; [discriminate|]. cbn [length Nat.eqb negb].
  destruct (json_loads (c :: s)) as [a|e] eqn:Hj; [|discriminate].
  intros [= <-]. exists line. rewrite Hs. repeat split; [discriminate|exact Hj].
Qed.

Lemma omap_length_le {A B} (f : A -> option B) l :
  length (omap f l) <= length l.
Proof.
  unfold omap. induction l as [|x l IH]; [done|].
  cbn [list_omap]. destruct (f x); cbn [length]; lia.
Qed.

(** X2. Every record the reader returns is the decoding of a non-blank line of
    the file, and there are at most as many records as lines. *)
Theorem parse_transcript_sound events :
  (forall v, v ∈ parse_transcript (Some events) ->
     exists line, Line line ∈ events /\ strip line <> []
                  /\ json_loads (strip line) = Ok v)
  /\ length (parse_transcript (Some events)) <= length events.
Proof.
  cbn [parse_transcript]. rewrite read_loop_spec. cbn [app]. split.
  - intros v (ev & Hev & Hd)%list_elem_of_omap.
    apply decoded_line_Some in Hd as (line & -> & Hb & Hj).
    exists line. split; [|done].
    eapply elem_of_sublist; [exact Hev|apply before_abort_sublist].
  - unfold decoded_lines. etrans; [apply omap_length_le|].
    apply sublist_length, before_abort_sublist.
Qed.

Lemma before_abort_app events more :
  exists rest, before_abort (events ++ more) = before_abort events ++ rest.
Proof.
  induction events as [|ev events [rest IH]]; cbn [app before_abort].
  - by exists (before_abort more).
  - destruct (aborts ev); [by exists []|]. exists rest. by rewrite IH.
Qed.

(** X3. Lines appended to a transcript only append records: what was read from
    the shorter file is a prefix of what is read from the longer one. *)
Theorem parse_transcript_prefix events more :
  parse_transcript (Some events)
    `prefix_of` parse_transcript (Some (events ++ more)).
Proof.
  cbn [parse_transcript]. rewrite !read_loop_spec. cbn [app].
  destruct (before_abort_app events more) as [rest ->].
  unfold decoded_lines. rewrite omap_app. by eexists.
Qed.

(** ** The extractor, further *)

(** X4. [total_messages] counts every record of the input, also those that
    contribute to no list. *)
Theorem total_messages_counts_all msgs info :
  extract_session_info msgs = Ok info -> total_messages info = length msgs.
Proof.
  intros H. by apply extract_spec in H as (? & ? & _ & _ & _ & _ & _ & _ & _
    & _ & _ & ?).
Qed.

(** *** When extraction raises *)

Lemma command_rule_ok name tool_input info :
  (exists info', command_rule name tool_input info = Ok info')
  <-> (py_eq name (VStr (lit "Bash"))
       && truthy (get tool_input "command" (VStr [])) = true ->
       storable_command (get tool_input "command" (VStr [])) = true).
Proof.
  unfold command_rule.
  destruct (py_eq name (VStr (lit "Bash"))); cbn [andb];
    [|split; [discriminate|eauto]].
  destruct (truthy (get tool_input "command" (VStr []))) eqn:Ht;
    [|split; [discriminate|eauto]].
  destruct (get tool_input "command" (VStr [])) as [|b|z|f|s|l|d];
    cbn [py_len bind storable_command slice_add_ellipsis].
  1-4: split; [by intros [? ?]|intros H; by specialize (H eq_refl)].
  - split; [done|]. intros _. destruct (100 <? length s); eauto.
  - destruct (100 <? length l) eqn:E; cbn [bind].
    + apply Nat.ltb_lt in E. split; [by intros [? ?]|].
      intros H. specialize (H eq_refl). apply Nat.leb_le in H. lia.
    + apply Nat.ltb_ge in E. split; [intros _ _; by apply Nat.leb_le|eauto].
  - destruct (100 <? length d) eqn:E; cbn [bind].
    + apply Nat.ltb_lt in E. split; [by intros [? ?]|].
      intros H. specialize (H eq_refl). apply Nat.leb_le in H. lia.
    + apply Nat.ltb_ge in E. split; [intros _ _; by apply Nat.leb_le|eauto].
Qed.

Lemma tool_rule_ok d info :
  (exists info', tool_rule d info = Ok info')
  <-> (forall c, captured_command (VDict d) = Some c ->
                 storable_command c = true).
Proof.
  unfold tool_rule, captured_command, tool_input_of, tool_identifier,
    is_tool_invocation.
  destruct (py_eq (msg_type_of d) _ || has_key "tool" d); cbn [andb];
    [|split; [discriminate|eauto]].
  destruct (truthy (get d "name" _)); [|split; [discriminate|eauto]].
  destruct (get d "input" (VDict [])) as [| | | | | |ti];
    try (split; [discriminate|eauto]).
  rewrite command_rule_ok.
  destruct (py_eq _ (VStr (lit "Bash")) && truthy (get ti "command" (VStr []))).
  - split; [intros H c [= <-]; by apply H|intros H _; by apply H].
  - split; [discriminate|discriminate].
Qed.

Lemma step_ok info m :
  (exists info', step info m = Ok info')
  <-> is_object m = true
      /\ (forall c, captured_command m = Some c -> storable_command c = true).
Proof.
  destruct m as [| | | | | |d];
    try (split; [by intros [? ?]|by intros [? _]]).
  cbn [step is_object]. rewrite <- (tool_rule_ok d (prompt_rule d info)).
  split.
  - intros [info' H]. split; [done|].
    destruct (tool_rule d (prompt_rule d info)); [eauto|discriminate].
  - intros [_ [info2 ->]]. cbn [bind]. eauto.
Qed.

Lemma accumulate_ok msgs : forall info,
  (exists info', accumulate msgs info = Ok info')
  <-> Forall (fun m => is_object m = true
                       /\ (forall c, captured_command m = Some c ->
                                     storable_command c = true)) msgs.
Proof.
  induction msgs as [|m msgs IH]; intros info; cbn [accumulate].
  - split; [constructor|eauto].
  - rewrite Forall_cons, <- (step_ok info m). split.
    + destruct (step info m) as [info1|e] eqn:Hs; cbn [bind];
        [|by intros [? ?]].
      intros H. split; [eauto|]. by apply (IH info1).
    + intros [[info1 Hs] H]. rewrite Hs. cbn [bind]. by apply IH.
Qed.

Lemma py_same_hashable a b : py_same a b = true -> hashable a = hashable b.
Proof. destruct a, b; cbn; try done; by destruct (as_num _). Qed.

Lemma hashable_first_seen l :
  forallb hashable (fold_left add_unique l []) = forallb hashable l.
Proof.
  apply eq_true_iff_eq. rewrite !forallb_forall. split.
  - intros H x Hx%list_elem_of_In.
    destruct (fold_add_unique_covers l [] x (or_introl Hx)) as [Hin|Hin].
    + apply H. by apply list_elem_of_In.
    + unfold py_in in Hin. apply existsb_exists in Hin as (item & Hi & Hs).
      rewrite <- (py_same_hashable _ _ Hs). by apply H.
  - intros H x Hx%list_elem_of_In. apply H, list_elem_of_In.
    rewrite fold_add_unique_nil in Hx.
    eapply elem_of_sublist; [exact Hx|apply first_seen_fuel_sublist].
Qed.

Lemma Forall_omap_iff {A B} (f : A -> option B) (P : B -> Prop) l :
  Forall P (omap f l) <-> Forall (fun x => forall y, f x = Some y -> P y) l.
Proof.
  rewrite !Forall_forall. split.
  - intros H x Hx y Hy. apply H, list_elem_of_omap. eauto.
  - intros H y (x & Hx & Hy)%list_elem_of_omap. eauto.
Qed.

(** X5. Extraction returns exactly when every record is an object, every
    command of a shell record can be stored (a string, or a list or dict of
    at most 100 entries), and every path of a mutation or read record is
    hashable. *)
Theorem extract_returns_iff msgs :
  (exists info, extract_session_info msgs = Ok info)
  <-> Forall (fun m => is_object m = true) msgs
      /\ Forall (fun c => storable_command c = true)
           (omap captured_command msgs)
      /\ Forall (fun p => hashable p = true)
           (omap mutation_path msgs ++ omap read_path msgs).
Proof.
  assert ((exists acc, accumulate msgs (initial_info (length msgs)) = Ok acc)
          <-> Forall (fun m => is_object m = true) msgs
              /\ Forall (fun c => storable_command c = true)
                   (omap captured_command msgs)) as Hacc.
  { rewrite accumulate_ok, Forall_and, Forall_omap_iff. reflexivity. }
  rewrite Forall_app. unfold extract_session_info. split.
  - intros [info H].
    destruct (accumulate msgs _) as [acc|] eqn:Ha; [|discriminate].
    destruct (proj1 Hacc) as [Ho Hc]; [eauto|].
    split; [done|]. split; [done|]. apply accumulate_spec in Ha. subst acc.
    revert H. cbn [bind]. unfold post_pass, list_set.
    rewrite fold_files_modified, fold_files_read.
    cbn [initial_info files_modified files_read]. rewrite !hashable_first_seen.
    destruct (forallb hashable (omap mutation_path msgs)) eqn:Hm;
      [|discriminate].
    destruct (forallb hashable (omap read_path msgs)) eqn:Hr; [|discriminate].
    intros _. rewrite forallb_forall in Hm. rewrite forallb_forall in Hr.
    split; apply Forall_forall; intros x Hx%list_elem_of_In; auto.
  - intros (Ho & Hc & Hm & Hr).
    destruct (proj2 Hacc (conj Ho Hc)) as [acc Ha]. rewrite Ha. cbn [bind].
    apply accumulate_spec in Ha. subst acc. unfold post_pass, list_set.
    rewrite fold_files_modified, fold_files_read.
    cbn [initial_info files_modified files_read]. rewrite !hashable_first_seen.
    assert (forallb hashable (omap mutation_path msgs) = true) as ->.
    { apply forallb_forall. intros x Hx%list_elem_of_In.
      rewrite Forall_forall in Hm. auto. }
    assert (forallb hashable (omap read_path msgs) = true) as ->.
    { apply forallb_forall. intros x Hx%list_elem_of_In.
      rewrite Forall_forall in Hr. auto. }
    cbn [bind]. eauto.
Qed.




(** *** Concatenated transcripts *)

Lemma take_app_take {A} n (l1 l2 : list A) :
  take n (take n l1 ++ take n l2) = take n (l1 ++ l2).
Proof.
  rewrite !take_app, !take_take, length_take.
  replace (n `min` n) with n by lia.
  destruct (decide (n <= length l1)) as [Hle|Hgt].
  - replace (n - n `min` length l1) with 0 by lia.
    replace (n - length l1) with 0 by lia. done.
  - replace (n `min` length l1) with (length l1) by lia.
    by replace ((n - length l1) `min` n) with (n - length l1) by lia.
Qed.

(** X6. The SessionInfo of a concatenation is made of the SessionInfos of the
    parts: prompts are concatenated, message counts add up, and commands
    and errors are the concatenation cut at 15 and at 10. *)
Theorem extract_concatenation msgs1 msgs2 info1 info2 info :
  extract_session_info msgs1 = Ok info1 ->
  extract_session_info msgs2 = Ok info2 ->
  extract_session_info (msgs1 ++ msgs2) = Ok info ->
  user_prompts info = user_prompts info1 ++ user_prompts info2
  /\ total_messages info = total_messages info1 + total_messages info2
  /\ commands_run info = take 15 (commands_run info1 ++ commands_run info2)
  /\ errors_encountered info
     = take 10 (errors_encountered info1 ++ errors_encountered info2).
Proof.
  intros H1 H2 H.
  apply extract_spec in H1 as (? & ? & _ & _ & Hp1 & _ & _ & _ & _ & Hc1
    & He1 & Ht1).
  apply extract_spec in H2 as (? & ? & _ & _ & Hp2 & _ & _ & _ & _ & Hc2
    & He2 & Ht2).
  apply extract_spec in H as (? & ? & _ & _ & Hp & _ & _ & _ & _ & Hc
    & He & Ht).
  rewrite Hp, Hp1, Hp2, Ht, Ht1, Ht2, Hc, Hc1, Hc2, He, He1, He2.
  rewrite !map_app, !concat_app, length_app, !take_app_take. done.
Qed.

Lemma fold_add_unique_prefix l acc : acc `prefix_of` fold_left add_unique l acc.
Proof. rewrite fold_add_unique_first_seen. by eexists. Qed.

(** X7. Records appended to the input never remove or reorder a tool: the
    tools of the shorter input are a prefix of the tools of the longer. *)
Theorem tools_used_grows msgs more info info' :
  extract_session_info msgs = Ok info ->
  extract_session_info (msgs ++ more) = Ok info' ->
  tools_used info `prefix_of` tools_used info'.
Proof.
  intros H H'.
  apply extract_spec in H as (? & ? & _ & _ & _ & Ht & _).
  apply extract_spec in H' as (? & ? & _ & _ & _ & Ht' & _).
  rewrite Ht, Ht', omap_app, fold_left_app. apply fold_add_unique_prefix.
Qed.

(** *** The file lists *)

Lemma hashable_wf v : hashable v = true -> wf_value v.
Proof. by destruct v. Qed.

Lemma py_in_elem x l : hashable x = true -> x ∈ l -> py_in x l = true.
Proof.
  intros Hx Hin. unfold py_in. apply existsb_exists. exists x.
  split; [by apply list_elem_of_In|by apply py_same_refl_hashable].
Qed.

Lemma py_in_permutation x l l' : l ≡ₚ l' -> py_in x l = py_in x l'.
Proof.
  intros Hp. unfold py_in. apply eq_true_iff_eq. rewrite !existsb_exists.
  split; intros (item & Hi & Hs); exists item; split; try done;
    apply list_elem_of_In; apply list_elem_of_In in Hi.
  - by rewrite <- Hp.
  - by rewrite Hp.
Qed.

(** What [list(set(paths))[:20]] holds, for the first-seen paths. *)
Lemma capped_set_spec (Hset : set_order_law) paths result :
  list_set (fold_left add_unique paths []) = Ok result ->
  NoDup (take 20 result)
  /\ (forall p, p ∈ take 20 result -> p ∈ paths)
  /\ length (take 20 result) = 20 `min` length (first_seen paths)
  /\ (length (first_seen paths) <= 20 ->
      forall p, p ∈ paths -> py_in p (take 20 result) = true).
Proof.
  intros H.
  assert (Forall (fun x => hashable x = true) paths) as Hh.
  { revert H. unfold list_set. rewrite hashable_first_seen.
    destruct (forallb hashable paths) eqn:E; [|discriminate]. intros _.
    rewrite forallb_forall in E. apply Forall_forall.
    intros x Hx%list_elem_of_In. auto. }
  rewrite list_set_first_seen in H by done. injection H as <-.
  pose proof (Hset (first_seen paths)) as Hperm.
  assert (first_seen paths `sublist_of` paths) as Hsub
    by apply first_seen_fuel_sublist.
  assert (NoDup (first_seen paths)) as Hnd.
  { apply pairwise_distinct_NoDup; [|apply first_seen_distinct].
    apply Forall_forall. intros x Hx. apply hashable_wf.
    rewrite Forall_forall in Hh. apply Hh. by eapply elem_of_sublist. }
  split; [|split; [|split]].
  - eapply sublist_NoDup; [|apply sublist_take]. by rewrite Hperm.
  - intros p Hp%elem_of_take_inv. rewrite Hperm in Hp.
    by eapply elem_of_sublist.
  - rewrite length_take. by rewrite (Permutation_length Hperm).
  - intros Hlen p Hp. rewrite take_ge
      by (by rewrite (Permutation_length Hperm)).
    rewrite (py_in_permutation _ _ _ Hperm).
    destruct (fold_add_unique_covers paths [] p (or_introl Hp)) as [Hin|Hin];
      rewrite fold_add_unique_nil in Hin; [|done].
    apply py_in_elem; [|done]. rewrite Forall_forall in Hh. auto.
Qed.

(** X8. [files_modified] and [files_read] hold no path twice; each entry is the
    path of a mutation record, respectively of a read record, of the input;
    and their lengths are the numbers of distinct paths, capped at 20. *)
Theorem file_lists_sound (Hset : set_order_law) msgs info :
  extract_session_info msgs = Ok info ->
  NoDup (files_modified info) /\ NoDup (files_read info)
  /\ (forall p, p ∈ files_modified info ->
        exists m, m ∈ msgs /\ mutation_path m = Some p)
  /\ (forall p, p ∈ files_read info ->
        exists m, m ∈ msgs /\ read_path m = Some p)
  /\ length (files_modified info)
     = 20 `min` length (first_seen (omap mutation_path msgs))
  /\ length (files_read info)
     = 20 `min` length (first_seen (omap read_path msgs)).
Proof.
  intros H.
  apply extract_spec in H as (modified & read & Hm & Hr & _ & _ & Hfm & _
    & Hfr & _).
  apply (capped_set_spec Hset) in Hm as (Hm1 & Hm2 & Hm3 & _).
  apply (capped_set_spec Hset) in Hr as (Hr1 & Hr2 & Hr3 & _).
  rewrite Hfm, Hfr. repeat split; try done.
  - intros p Hp%Hm2. by apply list_elem_of_omap in Hp.
  - intros p Hp%Hr2. by apply list_elem_of_omap in Hp.
Qed.

(** X9. When the input touches at most 20 distinct paths, none is lost: every
    path of a mutation record is found in [files_modified], and every path
    of a read record in [files_read]. *)
Theorem file_lists_complete (Hset : set_order_law) msgs info :
  extract_session_info msgs = Ok info ->
  (length (first_seen (omap mutation_path msgs)) <= 20 ->
   forall m p, m ∈ msgs -> mutation_path m = Some p ->
               py_in p (files_modified info) = true)
  /\ (length (first_seen (omap read_path msgs)) <= 20 ->
      forall m p, m ∈ msgs -> read_path m = Some p ->
                  py_in p (files_read info) = true).
Proof.
  intros H.
  apply extract_spec in H as (modified & read & Hm & Hr & _ & _ & Hfm & _
    & Hfr & _).
  apply (capped_set_spec Hset) in Hm as (_ & _ & _ & Hm4).
  apply (capped_set_spec Hset) in Hr as (_ & _ & _ & Hr4).
  rewrite Hfm, Hfr. split.
  - intros Hlen m p Hin Hp. apply Hm4; [done|].
    apply list_elem_of_omap. eauto.
  - intros Hlen m p Hin Hp. apply Hr4; [done|].
    apply list_elem_of_omap. eauto.
Qed.

(** ** The renderer, further *)

Lemma join_values_ok l :
  (exists names, join_values l = Ok names)
  <-> Forall (fun v => exists s, v = VStr s) l.
Proof.
  induction l as [|v l IH]; cbn [join_values].
  - split; [constructor|eauto].
  - rewrite Forall_cons, <- IH.
    destruct v as [| | | |s| |];
      try (split; [by intros [? ?]|by intros [[? ?] _]]).
    split.
    + intros [names H]. split; [eauto|].
      destruct (join_values l); [eauto|discriminate].
    + intros [_ [names ->]]. cbn [bind]. eauto.
Qed.

Lemma join_values_raises l e : join_values l = Raise e -> e = TypeError.
Proof.
  induction l as [|v l IH]; cbn [join_values]; [discriminate|].
  destruct v; try congruence.
  destruct (join_values l); cbn [bind]; [discriminate|].
  intros [= <-]. by apply IH.
Qed.

Lemma generate_summary_raises_kind info now e :
  generate_summary info now = Raise e -> e = TypeError.
Proof.
  unfold generate_summary, summary_body, tools_section.
  destruct (tools_used info) as [|v l] eqn:Ht; cbn [bind]; [discriminate|].
  destruct (join_values (v :: l)) as [names|e'] eqn:Hj; cbn [bind];
    [discriminate|].
  intros [= <-]. by eapply join_values_raises.
Qed.

(** X10. Rendering returns exactly when every entry of [tools_used] is a string;
    otherwise the join of the tool names raises [TypeError]. *)
Theorem generate_summary_returns_iff info now :
  ((exists text, generate_summary info now = Ok text)
   <-> Forall (fun v => exists s, v = VStr s) (tools_used info))
  /\ (forall e, generate_summary info now = Raise e -> e = TypeError).
Proof.
  unfold generate_summary, summary_body, tools_section. split.
  - rewrite <- join_values_ok.
    destruct (tools_used info) as [|v l] eqn:Ht; cbn [bind].
    + split; eauto.
    + destruct (join_values (v :: l)); cbn [bind];
        split; eauto; by intros [? ?].
  - intros e. fold (summary_body info). fold (generate_summary info now).
    apply generate_summary_raises_kind.
Qed.

Lemma length_numbered prompts : forall i,
  length (numbered i prompts) = length prompts.
Proof.
  induction prompts as [|p prompts IH]; intros i; cbn [numbered length];
    [done|]. by rewrite IH.
Qed.

(** X11. However large the SessionInfo, the report has between 12 and 49 items:
    at most 5 prompts, 10 files, 5 commands and 3 errors are listed. *)
Theorem summary_size_bounded info now body :
  summary_body info = Ok body ->
  12 <= length (summary_head now ++ body) <= 49.
Proof.
  intros H.
  assert (exists tools, body
            = [[]] ++ requested_section info ++ modified_section info
              ++ tools ++ commands_section info ++ errors_section info
              ++ statistics_section info ++ [banner]
            /\ length tools <= 3) as (tools & -> & Htools).
  { revert H. unfold summary_body, tools_section.
    destruct (tools_used info); cbn [bind].
    - intros [= <-]. exists []. split; [reflexivity|cbn; lia].
    - destruct (join_values _) as [names|]; cbn [bind]; [|discriminate].
      intros [= <-].
      exists [lit "## Tools Used"; lit "  " ++ join (lit ", ") names; []].
      split; [reflexivity|cbn; lia]. }
  unfold summary_head.
  unfold requested_section, modified_section, commands_section,
    errors_section, statistics_section.
  assert (forall {A} (l : list A) n, length (take n l) <= n) as Htake
    by (intros; rewrite length_take; lia).
  pose proof (Htake _ (user_prompts info) 5).
  pose proof (Htake _ (files_modified info) 10).
  pose proof (Htake _ (commands_run info) 5).
  pose proof (Htake _ (errors_encountered info) 3).
  destruct (user_prompts info), (files_modified info), (commands_run info),
    (errors_encountered info);
    repeat match goal with |- context [if ?c then _ else _] => destruct c end;
    rewrite ?length_app, ?length_cons, ?length_map, ?length_numbered,
      ?length_app, ?length_nil; cbn [length] in *; lia.
Qed.

Lemma elem_of_lstrip x s : x ∈ lstrip s -> x ∈ s.
Proof.
  induction s as [|c s IH]; cbn [lstrip]; [done|].
  destruct (isspace c); [|done]. intros H. right. by apply IH.
Qed.

Lemma elem_of_strip x s : x ∈ strip s -> x ∈ s.
Proof.
  unfold strip. intros H%list_elem_of_In%in_rev%list_elem_of_In.
  apply elem_of_lstrip in H. apply list_elem_of_In, in_rev in H.
  by apply elem_of_lstrip, list_elem_of_In.
Qed.

Lemma replace_newline_no_newline s : newline ∉ replace_char newline 32%N s.
Proof.
  unfold replace_char. intros (c & Hc & _)%list_elem_of_fmap.
  destruct (N.eqb_spec c newline); [discriminate|]. by subst c.
Qed.

Lemma numbered_no_newline prompts : forall i item,
  item ∈ numbered i prompts -> newline ∉ item.
Proof.
  induction prompts as [|p prompts IH]; intros i item; cbn [numbered].
  - by intros H%elem_of_nil.
  - intros [->|H]%elem_of_cons; [|by eapply IH].
    rewrite !not_elem_of_app. repeat split.
    + by apply lit_no_newline.
    + apply decimal_no_newline.
    + by apply lit_no_newline.
    + intros H%elem_of_strip. by apply replace_newline_no_newline in H.
Qed.

(** X12. Every prompt is shown on one line: no item of the "What Was Requested"
    section holds a newline, whatever the prompts hold. *)
Theorem requested_section_single_lines info item :
  item ∈ requested_section info -> newline ∉ item.
Proof.
  unfold requested_section. destruct (user_prompts info) as [|p l] eqn:Hp;
    [by intros H%elem_of_nil|].
  rewrite !elem_of_app.
  intros [H|[H|[H|H]]].
  - apply list_elem_of_singleton in H as ->. by apply lit_no_newline.
  - by eapply numbered_no_newline.
  - destruct (5 <? _); [|by apply elem_of_nil in H].
    apply list_elem_of_singleton in H as ->.
    rewrite !not_elem_of_app. repeat split;
      first [apply decimal_no_newline | by apply lit_no_newline].
  - apply list_elem_of_singleton in H as ->. apply not_elem_of_nil.
Qed.

(** X13. An error is shown cut to 100 characters: no item of the "Errors
    Encountered" section is longer than the warning sign and 100
    characters, and at most three errors are shown. *)
Theorem errors_section_bounded info :
  (forall item, item ∈ errors_section info ->
                length item <= length warning + 100)
  /\ length (errors_section info) <= 5.
Proof.
  unfold errors_section.
  destruct (errors_encountered info) as [|e l] eqn:He;
    [split; [by intros item H%elem_of_nil|cbn; lia]|].
  split.
  - intros item. rewrite !elem_of_app. intros [H|[H|H]].
    + apply list_elem_of_singleton in H as ->. vm_compute. lia.
    + apply list_elem_of_fmap in H as (err & -> & _).
      rewrite length_app, length_take. lia.
    + apply list_elem_of_singleton in H as ->. cbn. lia.
  - rewrite !length_app, length_map, length_take. cbn [length]. lia.
Qed.

(** X14. The report does not depend on [files_created], and on [files_read]
    only through its length. *)
Theorem generate_summary_ignores_created info info' now :
  user_prompts info = user_prompts info' ->
  tools_used info = tools_used info' ->
  files_modified info = files_modified info' ->
  length (files_read info) = length (files_read info') ->
  commands_run info = commands_run info' ->
  errors_encountered info = errors_encountered info' ->
  total_messages info = total_messages info' ->
  generate_summary info now = generate_summary info' now.
Proof.
  destruct info as [p t m c r k e n], info' as [p' t' m' c' r' k' e' n'].
  cbn [user_prompts tools_used files_modified files_read
    commands_run errors_encountered total_messages].
  intros -> -> -> Hlen -> -> ->.
  unfold generate_summary, summary_body, statistics_section, tools_section,
    requested_section, modified_section, commands_section, errors_section.
  cbn [user_prompts tools_used files_modified files_read
    commands_run errors_encountered total_messages].
  by rewrite Hlen.
Qed.

Lemma join_prefix sep a rest : a `prefix_of` join sep (a :: rest).
Proof.
  destruct rest; cbn [join]; [done|]. by eexists.
Qed.

Lemma join_suffix sep b : forall l, b `suffix_of` join sep (l ++ [b]).
Proof.
  induction l as [|a l IH]; [done|].
  change ((a :: l) ++ [b]) with (a :: (l ++ [b])).
  destruct (l ++ [b]) as [|c r] eqn:E; [by destruct l|].
  rewrite join_cons_cons. destruct IH as [k ->].
  exists (a ++ sep ++ k). by rewrite <- !app_assoc.
Qed.

(** X15. The report opens and closes with the banner of 60 [=] signs. *)
Theorem generate_summary_framed info now text :
  generate_summary info now = Ok text ->
  banner `prefix_of` text /\ banner `suffix_of` text.
Proof.
  unfold generate_summary, summary_body.
  destruct (tools_section info) as [tools|]; cbn [bind]; [|discriminate].
  set (body := [[]] ++ requested_section info ++ modified_section info
               ++ tools ++ commands_section info ++ errors_section info
               ++ statistics_section info). 
  intros H.
  assert (text = join [newline]
                   (banner :: ([lit "SESSION SUMMARY"; banner;
                                lit "Generated: " ++ strftime now] ++ body)
                           ++ [banner])) as ->.
  { assert (Ok text = Ok (join [newline]
                   (banner :: ([lit "SESSION SUMMARY"; banner;
                                lit "Generated: " ++ strftime now] ++ body)
                           ++ [banner]))) as E; [|congruence].
    rewrite <- H. do 2 f_equal. subst body. unfold summary_head.
    cbn [app]. by rewrite <- !app_assoc. }
  split.
  - apply join_prefix.
  - apply (join_suffix [newline] banner (banner :: _)).
Qed.

(** ** The writer *)

Lemma concat_text_lines text : forall current,
  concat (text_lines current text) = rev current ++ text.
Proof.
  induction text as [|c text IH]; intros current; cbn [text_lines].
  - destruct current as [|a current]; [done|].
    cbn [concat]. by rewrite !app_nil_r.
  - destruct (c =? newline)%N.
    + cbn [concat]. rewrite IH. cbn [rev app]. by rewrite <- app_assoc.
    + rewrite IH. cbn [rev]. by rewrite <- app_assoc.
Qed.

Lemma read_all_lines ls : read_all (map Line ls) = Ok (concat ls).
Proof.
  induction ls as [|l ls IH]; cbn [map read_all concat]; [done|].
  by rewrite IH.
Qed.

(** Reading back a written file gives the text that was written. *)
Lemma read_all_written text : read_all (written text) = Ok text.
Proof. unfold written. by rewrite read_all_lines, concat_text_lines. Qed.


Lemma save_summary_untouched dir text info now fs q :
  q <> path_join dir "session_summary.txt" ->
  q <> path_join dir "session_summary.json" ->
  fst (save_summary dir text info now fs) !! q = fs !! q.
Proof.
  intros Ht Hj. unfold save_summary.
  destruct (file_encodable text); cbn [fst]; by rewrite !lookup_insert_ne.
Qed.





(** ** The driver, further *)

Lemma main_files args stdin now1 now2 fs :
  files_after (main args stdin now1 now2 fs)
  = fst (fst (main_body args stdin now1 now2 fs))
  /\ stdout (main args stdin now1 now2 fs)
     = snd (fst (main_body args stdin now1 now2 fs))
  /\ stderr (main args stdin now1 now2 fs)
     = match snd (main_body args stdin now1 now2 fs) with
       | Ok _ | Raise JSONDecodeError => []
       | Raise e => [e]
       end.
Proof.
  unfold main. destruct (main_body args stdin now1 now2 fs) as [[fs' out] r].
  destruct r as [|e]; [done|]. by destruct e.
Qed.

Lemma artifact_paths_differ dir :
  path_join dir "stop.json" <> path_join dir "chat.json"
  /\ path_join dir "stop.json" <> path_join dir "session_summary.txt"
  /\ path_join dir "stop.json" <> path_join dir "session_summary.json"
  /\ path_join dir "chat.json" <> path_join dir "session_summary.txt"
  /\ path_join dir "chat.json" <> path_join dir "session_summary.json".
Proof. repeat split; by apply path_join_inj. Qed.

(** Transcript processing writes at most [chat.json] and the two summary
    files. *)
Lemma process_transcript_untouched args dir path now1 now2 fs q :
  q <> path_join dir "chat.json" ->
  q <> path_join dir "session_summary.txt" ->
  q <> path_join dir "session_summary.json" ->
  fst (fst (process_transcript args dir path now1 now2 fs)) !! q = fs !! q.
Proof.
  intros Hc Ht Hj. unfold process_transcript.
  destruct (truthy path); [|done].
  destruct (os_path_exists fs path) as [[|]|]; try done.
  set (messages := parse_transcript (os_open fs path)).
  set (fs1 := if chat args && negb (length messages =? 0) then _ else fs).
  assert (fs1 !! q = fs !! q) as H1.
  { subst fs1. destruct (_ && _); [|done]. by rewrite lookup_insert_ne. }
  destruct (summary args && _); [|done].
  destruct (extract_session_info messages) as [info|]; [|done].
  destruct (generate_summary _ _) as [text|]; [|done].
  pose proof (save_summary_untouched dir text info now2 fs1 q Ht Hj) as Hs.
  destruct (save_summary dir text info now2 fs1) as [fs2 [[]|e]];
    cbn [fst] in *; [destruct (stdout_encodable _)|]; cbn [fst]; congruence.
Qed.

Lemma main_body_archived args stdin now1 now2 fs env dir entries :
  json_loads stdin = Ok (VDict env) ->
  ensure_session_log_dir (get env "session_id" (VStr (lit "unknown")))
  = Ok dir ->
  load_archive fs (path_join dir "stop.json") = Ok (VList entries) ->
  main_body args stdin now1 now2 fs
  = process_transcript args dir (get env "transcript_path" (VStr []))
      now1 now2
      (<[path_join dir "stop.json" :=
           written (json_dumps (VList (entries ++ [VDict env])))]> fs).
Proof. intros Hin Hdir Harch. unfold main_body. by rewrite Hin, Hdir, Harch. Qed.

(** X18. An envelope that is not a JSON object, or not JSON at all, leaves every
    file as it was and prints nothing; only an undecodable envelope is
    passed over without a diagnostic. *)
Theorem main_rejects_bad_envelope args stdin now1 now2 fs :
  (forall env, json_loads stdin <> Ok (VDict env)) ->
  let o := main args stdin now1 now2 fs in
  exit_status o = 0%Z /\ files_after o = fs /\ stdout o = []
  /\ stderr o = match json_loads stdin with
                | Raise JSONDecodeError => []
                | Raise e => [e]
                | Ok _ => [AttributeError]
                end.
Proof.
  intros Hbad o. subst o. unfold main, main_body.
  destruct (json_loads stdin) as [v|e] eqn:Hin.
  - destruct v as [| | | | | |env]; try done. by destruct (Hbad env).
  - by destruct e.
Qed.

(** X19. The run writes no file other than [stop.json], [chat.json],
    [session_summary.txt] and [session_summary.json] of the session's log
    directory: every other path, the transcript included, is as before. *)
Theorem main_touches_only_artifacts args stdin now1 now2 fs q :
  (forall session_id dir, ensure_session_log_dir session_id = Ok dir ->
     q <> path_join dir "stop.json" /\ q <> path_join dir "chat.json"
     /\ q <> path_join dir "session_summary.txt"
     /\ q <> path_join dir "session_summary.json") ->
  files_after (main args stdin now1 now2 fs) !! q = fs !! q.
Proof.
  intros Hq. rewrite (proj1 (main_files args stdin now1 now2 fs)).
  unfold main_body.
  destruct (json_loads stdin) as [v|]; [|done].
  destruct v as [| | | | | |env]; try done.
  destruct (ensure_session_log_dir _) as [dir|] eqn:Hdir; [|done].
  destruct (Hq _ _ Hdir) as (Hs & Hc & Ht & Hj).
  destruct (load_archive fs _) as [v|]; [|done].
  destruct v as [| | | | |entries|]; try done.
  rewrite process_transcript_untouched by done.
  by rewrite lookup_insert_ne.
Qed.

(** X20. The envelope is archived before the transcript is looked at:
    whatever the flags, the transcript and the fate of the summary, a
    [stop.json] that is absent, cannot be decoded, or holds a JSON array
    ends as the entries it held followed by the envelope. *)
Theorem main_archives_envelope args stdin now1 now2 fs env dir entries :
  json_loads stdin = Ok (VDict env) ->
  ensure_session_log_dir (get env "session_id" (VStr (lit "unknown")))
  = Ok dir ->
  archive_holds fs (path_join dir "stop.json") entries ->
  files_after (main args stdin now1 now2 fs) !! path_join dir "stop.json"
  = Some (written (json_dumps (VList (entries ++ [VDict env])))).
Proof.
  intros Hin Hdir Harch%archive_holds_load.
  rewrite (proj1 (main_files args stdin now1 now2 fs)).
  rewrite (main_body_archived _ _ _ _ _ _ _ _ Hin Hdir Harch).
  destruct (artifact_paths_differ dir) as (Hc & Ht & Hj & _).
  rewrite process_transcript_untouched by done.
  apply lookup_insert_eq.
Qed.

(** X21. An archive that holds a JSON value other than an array stops the run
    before anything is written: the envelope is not archived, and the
    failed [append] is reported. *)
Theorem main_non_array_archive args stdin now1 now2 fs env dir f text v :
  json_loads stdin = Ok (VDict env) ->
  ensure_session_log_dir (get env "session_id" (VStr (lit "unknown")))
  = Ok dir ->
  fs !! path_join dir "stop.json" = Some f ->
  read_all f = Ok text ->
  json_loads text = Ok v ->
  (forall entries, v <> VList entries) ->
  let o := main args stdin now1 now2 fs in
  exit_status o = 0%Z /\ files_after o = fs /\ stdout o = []
  /\ stderr o = [AttributeError].
Proof.
  intros Hin Hdir Hf Hr Hv Hne o. subst o. unfold main, main_body, load_archive.
  rewrite Hin, Hdir, Hf, Hr. cbn [bind]. rewrite Hv.
  destruct v as [| | | | |entries|]; try done. by destruct (Hne entries).
Qed.

(** X22. An archive that cannot be decoded is started afresh: the earlier
    envelopes are dropped and [stop.json] holds the new envelope alone. *)
Theorem main_resets_corrupt_archive args stdin now1 now2 fs env dir f e :
  json_loads stdin = Ok (VDict env) ->
  ensure_session_log_dir (get env "session_id" (VStr (lit "unknown")))
  = Ok dir ->
  fs !! path_join dir "stop.json" = Some f ->
  (let* text := read_all f in json_loads text) = Raise e ->
  caught_as_value_error e = true ->
  files_after (main args stdin now1 now2 fs) !! path_join dir "stop.json"
  = Some (written (json_dumps (VList [VDict env]))).
Proof.
  intros Hin Hdir Hf Hr He.
  assert (load_archive fs (path_join dir "stop.json") = Ok (VList [])) as Ha.
  { unfold load_archive. by rewrite Hf, Hr, He. }
  rewrite (proj1 (main_files args stdin now1 now2 fs)).
  rewrite (main_body_archived _ _ _ _ _ _ _ _ Hin Hdir Ha).
  destruct (artifact_paths_differ dir) as (Hc & Ht & Hj & _).
  rewrite process_transcript_untouched by done.
  apply lookup_insert_eq.
Qed.

(** X23. With [--chat], an existing transcript that gives records is copied to
    [chat.json], also when the summary step then fails. *)
Theorem main_writes_chat args stdin now1 now2 fs env dir entries :
  json_loads stdin = Ok (VDict env) ->
  ensure_session_log_dir (get env "session_id" (VStr (lit "unknown")))
  = Ok dir ->
  load_archive fs (path_join dir "stop.json") = Ok (VList entries) ->
  let path := get env "transcript_path" (VStr []) in
  let fs1 := <[path_join dir "stop.json" :=
                 written (json_dumps (VList (entries ++ [VDict env])))]> fs in
  let messages := parse_transcript (os_open fs1 path) in
  chat args = true ->
  truthy path = true ->
  os_path_exists fs1 path = Ok true ->
  messages <> [] ->
  files_after (main args stdin now1 now2 fs) !! path_join dir "chat.json"
  = Some (written (json_dumps (VList messages))).
Proof.
  intros Hin Hdir Harch path fs1 messages Hchat Htruthy Hex Hmsgs.
  rewrite (proj1 (main_files args stdin now1 now2 fs)).
  rewrite (main_body_archived _ _ _ _ _ _ _ _ Hin Hdir Harch).
  fold path fs1. unfold process_transcript. rewrite Htruthy, Hex, Hchat.
  fold messages.
  assert (negb (length messages =? 0) = true) as ->
    by (by destruct messages).
  cbn [andb]. destruct (artifact_paths_differ dir) as (_ & _ & _ & Ht & Hj).
  destruct (summary args); cbn [andb]; [|apply lookup_insert_eq].
  destruct (extract_session_info messages) as [info|];
    [|apply lookup_insert_eq].
  destruct (generate_summary _ _) as [text|]; [|apply lookup_insert_eq].
  set (fs2 := <[path_join dir "chat.json" := _]> fs1).
  pose proof (save_summary_untouched dir text info now2 fs2 _ Ht Hj) as Hs.
  assert (fs2 !! path_join dir "chat.json"
          = Some (written (json_dumps (VList messages)))) as H2
    by apply lookup_insert_eq.
  destruct (save_summary dir text info now2 fs2) as [fs3 [[]|e]];
    cbn [fst] in *; [destruct (stdout_encodable _)|]; cbn [fst]; congruence.
Qed.





(** X26. Without [--chat] and [--summary] the only file written is the
    archive. *)
Theorem main_without_flags args stdin now1 now2 fs env dir entries :
  json_loads stdin = Ok (VDict env) ->
  ensure_session_log_dir (get env "session_id" (VStr (lit "unknown")))
  = Ok dir ->
  load_archive fs (path_join dir "stop.json") = Ok (VList entries) ->
  chat args = false ->
  summary args = false ->
  let o := main args stdin now1 now2 fs in
  files_after o
  = <[path_join dir "stop.json" :=
        written (json_dumps (VList (entries ++ [VDict env])))]> fs
  /\ stdout o = [].
Proof.
  intros Hin Hdir Harch Hchat Hsum o. subst o.
  destruct (main_files args stdin now1 now2 fs) as (-> & -> & _).
  rewrite (main_body_archived _ _ _ _ _ _ _ _ Hin Hdir Harch).
  unfold process_transcript. rewrite Hchat, Hsum. cbn [andb].
  destruct (truthy _); [|done].
  by destruct (os_path_exists _ _) as [[|]|].
Qed.

(** X27. Two runs for one session accumulate: when the codec reads back the
    archive the first run wrote, the second run leaves the earlier entries,
    the first envelope and the second envelope, in this order. *)
Theorem main_twice_accumulates args1 args2 stdin1 stdin2 now1 now2 now3 now4
    fs env1 env2 dir entries :
  json_loads stdin1 = Ok (VDict env1) ->
  json_loads stdin2 = Ok (VDict env2) ->
  ensure_session_log_dir (get env1 "session_id" (VStr (lit "unknown")))
  = Ok dir ->
  ensure_session_log_dir (get env2 "session_id" (VStr (lit "unknown")))
  = Ok dir ->
  load_archive fs (path_join dir "stop.json") = Ok (VList entries) ->
  json_loads (json_dumps (VList (entries ++ [VDict env1])))
  = Ok (VList (entries ++ [VDict env1])) ->
  let o1 := main args1 stdin1 now1 now2 fs in
  let o2 := main args2 stdin2 now3 now4 (files_after o1) in
  files_after o2 !! path_join dir "stop.json"
  = Some (written
            (json_dumps (VList (entries ++ [VDict env1; VDict env2])))).
Proof.
  intros Hin1 Hin2 Hdir1 Hdir2 Harch Hcodec o1 o2. subst o1 o2.
  destruct (artifact_paths_differ dir) as (Hc & Ht & Hj & _).
  set (fs1 := files_after (main args1 stdin1 now1 now2 fs)).
  assert (fs1 !! path_join dir "stop.json"
          = Some (written (json_dumps (VList (entries ++ [VDict env1])))))
    as H1.
  { subst fs1. rewrite (proj1 (main_files args1 stdin1 now1 now2 fs)).
    rewrite (main_body_archived _ _ _ _ _ _ _ _ Hin1 Hdir1 Harch).
    rewrite process_transcript_untouched by done. apply lookup_insert_eq. }
  assert (load_archive fs1 (path_join dir "stop.json")
          = Ok (VList (entries ++ [VDict env1]))) as Harch2.
  { unfold load_archive. rewrite H1, read_all_written. cbn [bind].
    by rewrite Hcodec. }
  rewrite (proj1 (main_files args2 stdin2 now3 now4 fs1)).
  rewrite (main_body_archived _ _ _ _ _ _ _ _ Hin2 Hdir2 Harch2).
  rewrite process_transcript_untouched by done.
  rewrite lookup_insert_eq. by rewrite <- app_assoc.
Qed.

End Further.


(** * The further properties on the sample runtimes *)

Lemma replay_set_order_law : @set_order_law Replay.runtime.
Proof. intros l. reflexivity. Qed.

Lemma malformed_transcript_gives_empty_info_witness :
  let events := [Line [newline]; Line (lit "{oops" ++ [newline]);
                 Line (lit "   " ++ [newline])] in
  @parse_transcript Sample.runtime (Some events) = []
  /\ @extract_session_info Sample.runtime
       (@parse_transcript Sample.runtime (Some events))
     = Ok (initial_info 0).
Proof.
  apply (@malformed_transcript_gives_empty_info Sample.runtime
           sample_set_order_law).
  repeat constructor.
  - exists [newline]. split; [reflexivity|]. left. reflexivity.
  - exists (lit "{oops" ++ [newline]). split; [reflexivity|]. right.
    reflexivity.
  - exists (lit "   " ++ [newline]). split; [reflexivity|]. left. reflexivity.
Defined.

Lemma total_messages_counts_all_witness :
  exists info,
    @extract_session_info Sample.runtime Sample.session = Ok info
    /\ total_messages info = 7.
Proof.
  eexists. split; [vm_compute; reflexivity|].
  apply (@total_messages_counts_all Sample.runtime Sample.session).
  vm_compute; reflexivity.
Defined.


Lemma extract_concatenation_witness :
  exists info1 info2 info,
    @extract_session_info Sample.runtime Sample.session = Ok info1
    /\ @extract_session_info Sample.runtime Sample.three_prompt_session
       = Ok info2
    /\ @extract_session_info Sample.runtime
         (Sample.session ++ Sample.three_prompt_session) = Ok info
    /\ user_prompts info = user_prompts info1 ++ user_prompts info2
    /\ total_messages info = total_messages info1 + total_messages info2.
Proof.
  do 3 eexists. split; [vm_compute; reflexivity|].
  split; [vm_compute; reflexivity|]. split; [vm_compute; reflexivity|].
  pose proof (@extract_concatenation Sample.runtime Sample.session
                Sample.three_prompt_session _ _ _
                ltac:(vm_compute; reflexivity) ltac:(vm_compute; reflexivity)
                ltac:(vm_compute; reflexivity)) as (H1 & H2 & _).
  split; [exact H1|exact H2].
Defined.

Lemma tools_used_grows_witness :
  exists info info',
    @extract_session_info Sample.runtime Sample.three_prompt_session = Ok info
    /\ @extract_session_info Sample.runtime
         (Sample.three_prompt_session ++ Sample.session) = Ok info'
    /\ tools_used info `prefix_of` tools_used info'.
Proof.
  do 2 eexists. split; [vm_compute; reflexivity|].
  split; [vm_compute; reflexivity|].
  apply (@tools_used_grows Sample.runtime Sample.three_prompt_session
           Sample.session); vm_compute; reflexivity.
Defined.

Lemma file_lists_sound_witness :
  exists info,
    @extract_session_info Sample.runtime Sample.session = Ok info
    /\ NoDup (files_modified info) /\ NoDup (files_read info)
    /\ length (files_modified info) = 2 /\ length (files_read info) = 1.
Proof.
  eexists. split; [vm_compute; reflexivity|].
  pose proof (@file_lists_sound Sample.runtime sample_set_order_law
                Sample.session _ ltac:(vm_compute; reflexivity))
    as (H1 & H2 & _ & _ & H5 & H6).
  split; [exact H1|]. split; [exact H2|]. split; [exact H5|exact H6].
Defined.

Lemma file_lists_complete_witness :
  exists info,
    @extract_session_info Sample.runtime Sample.session = Ok info
    /\ py_in (VStr (lit "/src/parser.py")) (files_modified info) = true.
Proof.
  eexists. split; [vm_compute; reflexivity|].
  pose proof (@file_lists_complete Sample.runtime sample_set_order_law
                Sample.session _ ltac:(vm_compute; reflexivity)) as [H _].
  apply (H ltac:(vm_compute; lia)
           (Sample.tool_use "Edit"
              [(lit "path", VStr (lit "/src/parser.py"))])).
  - apply list_elem_of_In. vm_compute. auto.
  - reflexivity.
Defined.

Lemma summary_size_bounded_witness :
  exists body,
    @summary_body Sample.runtime (initial_info 3) = Ok body
    /\ 12 <= length (summary_head Sample.noon ++ body) <= 49.
Proof.
  eexists. split; [vm_compute; reflexivity|].
  apply (@summary_size_bounded Sample.runtime (initial_info 3) Sample.noon).
  vm_compute; reflexivity.
Defined.

Lemma requested_section_single_lines_witness :
  let info := set_user_prompts (initial_info 1)
                [lit "fix" ++ [newline] ++ lit "it"] in
  nth 1 (requested_section info) [] = lit "  1. fix it"
  /\ newline ∉ nth 1 (requested_section info) [].
Proof.
  split; [vm_compute; reflexivity|].
  apply (requested_section_single_lines
           (set_user_prompts (initial_info 1)
              [lit "fix" ++ [newline] ++ lit "it"])).
  apply list_elem_of_In. vm_compute. right. left. reflexivity.
Defined.

Lemma generate_summary_ignores_created_witness :
  let info := initial_info 2 in
  let info' :=
    {| user_prompts := []; tools_used := []; files_modified := [];
       files_created := [VStr (lit "/src/new.py")]; files_read := [];
       commands_run := []; errors_encountered := []; total_messages := 2 |} in
  @generate_summary Sample.runtime info Sample.noon
  = @generate_summary Sample.runtime info' Sample.noon.
Proof.
  apply (@generate_summary_ignores_created Sample.runtime); reflexivity.
Defined.

Lemma generate_summary_framed_witness :
  exists text,
    @generate_summary Sample.runtime (initial_info 0) Sample.noon = Ok text
    /\ banner `prefix_of` text /\ banner `suffix_of` text.
Proof.
  eexists. split; [vm_compute; reflexivity|].
  apply (@generate_summary_framed Sample.runtime (initial_info 0) Sample.noon).
  vm_compute; reflexivity.
Defined.

Lemma main_rejects_bad_envelope_witness :
  let o := @main Sample.runtime Replay.both_flags (lit "5") Sample.noon
             Sample.noon Replay.good_files in
  exit_status o = 0%Z /\ files_after o = Replay.good_files /\ stdout o = []
  /\ stderr o = [AttributeError].
Proof.
  apply (@main_rejects_bad_envelope Sample.runtime Replay.both_flags
           (lit "5") Sample.noon Sample.noon Replay.good_files).
  intros env. vm_compute. discriminate.
Defined.

Lemma main_touches_only_artifacts_witness :
  files_after (@main Replay.runtime Replay.both_flags Replay.envelope_text
                 Sample.noon Sample.noon Replay.good_files)
    !! lit Replay.transcript
  = Some Replay.good_transcript.
Proof.
  rewrite (@main_touches_only_artifacts Replay.runtime Replay.both_flags
             Replay.envelope_text Sample.noon Sample.noon Replay.good_files
             (lit Replay.transcript)).
  - reflexivity.
  - intros session_id dir Hdir. destruct session_id; try discriminate.
    injection Hdir as <-. repeat split; discriminate.
Defined.

Lemma main_archives_envelope_witness :
  files_after (@main Replay.runtime Replay.both_flags Replay.envelope_text
                 Sample.noon Sample.noon
                 (<[lit Replay.transcript := Replay.good_transcript]>
                    Replay.archived_files))
    !! path_join (lit "logs/s1") "stop.json"
  = Some (written (Sample.repr
                     (VList [VDict Replay.envelope; VDict Replay.envelope]))).
Proof.
  apply (@main_archives_envelope Replay.runtime Replay.both_flags
           Replay.envelope_text Sample.noon Sample.noon
           (<[lit Replay.transcript := Replay.good_transcript]>
              Replay.archived_files)
           Replay.envelope (lit "logs/s1") [VDict Replay.envelope]).
  - reflexivity.
  - reflexivity.
  - apply (@archive_array Replay.runtime _
             (path_join (lit "logs/s1") "stop.json")
             (written Replay.archive_text) Replay.archive_text
             [VDict Replay.envelope]).
    + reflexivity.
    + vm_compute; reflexivity.
    + reflexivity.
Defined.

Lemma main_non_array_archive_witness :
  let o := @main Replay.runtime Replay.both_flags Replay.envelope_text
             Sample.noon Sample.noon Replay.number_archive in
  exit_status o = 0%Z /\ files_after o = Replay.number_archive
  /\ stdout o = [] /\ stderr o = [AttributeError].
Proof.
  apply (@main_non_array_archive Replay.runtime Replay.both_flags
           Replay.envelope_text Sample.noon Sample.noon Replay.number_archive
           Replay.envelope (lit "logs/s1") [Line (lit "5")] (lit "5")
           (VInt 5)).
  - reflexivity.
  - reflexivity.
  - vm_compute; reflexivity.
  - reflexivity.
  - reflexivity.
  - discriminate.
Defined.

Lemma main_resets_corrupt_archive_witness :
  files_after (@main Replay.runtime Replay.no_flags Replay.envelope_text
                 Sample.noon Sample.noon Replay.corrupt_archive)
    !! path_join (lit "logs/s1") "stop.json"
  = Some (written Replay.archive_text).
Proof.
  apply (@main_resets_corrupt_archive Replay.runtime Replay.no_flags
           Replay.envelope_text Sample.noon Sample.noon
           Replay.corrupt_archive Replay.envelope (lit "logs/s1")
           [Line (lit "{oops")] JSONDecodeError).
  - reflexivity.
  - reflexivity.
  - vm_compute; reflexivity.
  - reflexivity.
  - reflexivity.
Defined.

Lemma main_writes_chat_witness :
  files_after (@main Replay.runtime Replay.both_flags Replay.envelope_text
                 Sample.noon Sample.noon Replay.mixed_files)
    !! path_join (lit "logs/s1") "chat.json"
  = Some (written (Sample.repr
                     (VList [VInt 5; Sample.build_failed; VNone]))).
Proof.
  apply (@main_writes_chat Replay.runtime Replay.both_flags
           Replay.envelope_text Sample.noon Sample.noon Replay.mixed_files
           Replay.envelope (lit "logs/s1") []).
  - reflexivity.
  - reflexivity.
  - reflexivity.
  - reflexivity.
  - reflexivity.
  - vm_compute; reflexivity.
  - vm_compute; discriminate.
Defined.





Lemma main_without_flags_witness :
  let o := @main Replay.runtime Replay.no_flags Replay.envelope_text
             Sample.noon Sample.noon Replay.good_files in
  files_after o
  = <[path_join (lit "logs/s1") "stop.json" := written Replay.archive_text]>
      Replay.good_files
  /\ stdout o = [].
Proof.
  apply (@main_without_flags Replay.runtime Replay.no_flags
           Replay.envelope_text Sample.noon Sample.noon Replay.good_files
           Replay.envelope (lit "logs/s1") []); reflexivity.
Defined.

Lemma main_twice_accumulates_witness :
  let o1 := @main Replay.runtime Replay.no_flags Replay.envelope_text
              Sample.noon Sample.noon ∅ in
  let o2 := @main Replay.runtime Replay.both_flags Replay.envelope_text
              Sample.noon Sample.noon (files_after o1) in
  files_after o2 !! path_join (lit "logs/s1") "stop.json"
  = Some (written (Sample.repr
                     (VList [VDict Replay.envelope; VDict Replay.envelope]))).
Proof.
  apply (@main_twice_accumulates Replay.runtime Replay.no_flags
           Replay.both_flags Replay.envelope_text Replay.envelope_text
           Sample.noon Sample.noon Sample.noon Sample.noon ∅
           Replay.envelope Replay.envelope (lit "logs/s1") []).
  - reflexivity.
  - reflexivity.
  - reflexivity.
  - reflexivity.
  - reflexivity.
  - vm_compute; reflexivity.
Defined.

Lemma parse_transcript_sound_witness :
  exists line,
    Line line ∈ Sample.small_transcript /\ strip line <> []
    /\ @json_loads Sample.runtime (strip line) = Ok Sample.build_failed.
Proof.
  apply (proj1 (@parse_transcript_sound Sample.runtime
                  Sample.small_transcript)).
  apply list_elem_of_In. vm_compute. right. left. reflexivity.
Defined.

Lemma extract_returns_iff_witness :
  Forall (fun m => is_object m = true) Sample.session
  /\ Forall (fun c => storable_command c = true)
       (omap captured_command Sample.session)
  /\ Forall (fun p => hashable p = true)
       (omap mutation_path Sample.session
        ++ omap read_path Sample.session).
Proof.
  apply (proj1 (@extract_returns_iff Sample.runtime Sample.session)).
  eexists. vm_compute; reflexivity.
Defined.

Lemma generate_summary_returns_iff_witness :
  exists text,
    @generate_summary Sample.runtime
      (set_tools_used (initial_info 1) [VStr (lit "Bash")]) Sample.noon
    = Ok text.
Proof.
  apply (proj2 (proj1 (@generate_summary_returns_iff Sample.runtime
                         (set_tools_used (initial_info 1)
                            [VStr (lit "Bash")]) Sample.noon))).
  repeat constructor. eexists. reflexivity.
Defined.

Lemma errors_section_bounded_witness :
  let info := set_errors_encountered (initial_info 1)
                [repeat 101%N 150 ++ ellipsis] in
  length (nth 1 (errors_section info) []) <= length warning + 100.
Proof.
  apply (proj1 (errors_section_bounded
                  (set_errors_encountered (initial_info 1)
                     [repeat 101%N 150 ++ ellipsis]))).
  apply list_elem_of_In. right. left. reflexivity.
Defined.


